(** * SigmaQuantStream: the backtest engine and the EVT fallback

    A shallow embedding of [lib/backtest_runner.py] (cost model, trade
    simulator, metrics, overfit grading, walk-forward loop) and of
    [CryptoRiskModeler.evt_var] from [lib/crypto/risk_modeler.py].

    Python floats and numpy float64 values are IEEE binary64 numbers and are
    modelled by Rocq's primitive floats; Python ints are [Z]; bar indices
    (values of [range]) are [nat]; a dict read from JSON is a [gmap] with
    string keys; a raised exception is the [Raise] outcome of [result]. *)

From Stdlib Require Import ZArith List Bool Lia Floats.
From stdpp Require Import base option gmap strings list sorting.

Set Warnings "-inexact-float".
Local Open Scope string_scope.
Local Open Scope list_scope.
Local Open Scope Z_scope.

(** ** Values, exceptions and the error monad *)

(** A JSON scalar as it sits in a cost-model dict.  JSON numbers are read as
    binary64 floats. *)
Inductive value :=
| VStr (s : string)
| VNum (x : float).

(** The exceptions the modelled code can raise.  [ValueError_unknown_cost_model v]
    is [ValueError(f"Unknown cost model type: {v}")]: it carries the value that
    the message interpolates. *)
Inductive exn :=
| ValueError_unknown_cost_model (cm_type : value)
| TypeError
| ZeroDivisionError
| LibraryError (msg : string).

Inductive result (A : Type) :=
| Ok (a : A)
| Raise (e : exn).
Arguments Ok {A} a.
Arguments Raise {A} e.

#[global] Instance result_ret : MRet result := @Ok.
#[global] Instance result_bind : MBind result :=
  fun A B f m => match m with Ok a => f a | Raise e => Raise e end.

(** ** Python arithmetic on floats *)

(** [a / b] on Python floats: a zero divisor raises. *)
Definition py_truediv (a b : float) : result float :=
  if PrimFloat.eqb b 0 then Raise ZeroDivisionError else Ok (a / b)%float.

(** Builtin [max(a, b)] and [min(a, b)]: the first argument is kept unless the
    second compares strictly greater (smaller). *)
Definition py_max (a b : float) : float := if PrimFloat.ltb a b then b else a.
Definition py_min (a b : float) : float := if PrimFloat.ltb b a then b else a.

(** [float(n)] for an int below 2^63 in magnitude. *)
Definition float_of_Z (z : Z) : float :=
  if z <? 0 then PrimFloat.opp (PrimFloat.of_uint63 (Uint63.of_Z (- z)))
  else PrimFloat.of_uint63 (Uint63.of_Z z).

(** ** Cost models *)

Definition DEFAULT_FUTURES_COST : gmap string value :=
  <["type" := VStr "futures"]>
  (<["commission_per_side" := VNum 2.50]>
  (<["slippage_ticks" := VNum 0.5]>
  (<["tick_value" := VNum 12.50]> ∅))).

Definition DEFAULT_CRYPTO_CEX_COST : gmap string value :=
  <["type" := VStr "crypto_cex"]>
  (<["maker_fee" := VNum 0.0002]>
  (<["taker_fee" := VNum 0.0005]>
  (<["slippage_pct" := VNum 0.0005]> ∅))).

Definition DEFAULT_CRYPTO_DEX_COST : gmap string value :=
  <["type" := VStr "crypto_dex"]>
  (<["maker_fee" := VNum 0.0002]>
  (<["taker_fee" := VNum 0.0005]>
  (<["gas_per_trade" := VNum 0.50]>
  (<["slippage_pct" := VNum 0.001]> ∅)))).

(** [d.get(key, dflt)]. *)
Definition dict_get (d : gmap string value) (key : string) (dflt : value) : value :=
  default dflt (d !! key).

(** [v == s] for a string literal [s]. *)
Definition value_is_str (v : value) (s : string) : bool :=
  match v with
  | VStr t => String.eqb t s
  | VNum _ => false
  end.

(** A dict entry used as a number.  A string there is not valid numeric input:
    Python raises TypeError on most arithmetic with it (and repeats the string
    when it is multiplied by an int); the model reports all of it as
    [TypeError]. *)
Definition as_num (v : value) : result float :=
  match v with
  | VNum x => Ok x
  | VStr _ => Raise TypeError
  end.

Definition compute_round_trip_cost
    (cost_model : gmap string value) (notional : float) : result float :=
  let cm_type := dict_get cost_model "type" (VStr "futures") in
  if value_is_str cm_type "futures" then
    commission ← as_num (dict_get cost_model "commission_per_side" (VNum 2.50));
    slippage_ticks ← as_num (dict_get cost_model "slippage_ticks" (VNum 0.5));
    tick_value ← as_num (dict_get cost_model "tick_value" (VNum 12.50));
    Ok (2 * commission + 2 * slippage_ticks * tick_value)%float
  else if value_is_str cm_type "crypto_cex" then
    maker ← as_num (dict_get cost_model "maker_fee" (VNum 0.0002));
    taker ← as_num (dict_get cost_model "taker_fee" (VNum 0.0005));
    slip ← as_num (dict_get cost_model "slippage_pct" (VNum 0.0005));
    Ok ((maker + taker + 2 * slip) * notional)%float
  else if value_is_str cm_type "crypto_dex" then
    maker ← as_num (dict_get cost_model "maker_fee" (VNum 0.0002));
    taker ← as_num (dict_get cost_model "taker_fee" (VNum 0.0005));
    gas ← as_num (dict_get cost_model "gas_per_trade" (VNum 0.50));
    slip ← as_num (dict_get cost_model "slippage_pct" (VNum 0.001));
    Ok ((maker + taker + 2 * slip) * notional + 2 * gas)%float
  else Raise (ValueError_unknown_cost_model cm_type).

(** [cost_model.get(key, dflt)] read as a number. *)
Definition num_field (cost_model : gmap string value) (key : string)
    (dflt : float) : result float :=
  as_num (dict_get cost_model key (VNum dflt)).

(** "Valid numeric input": the type tag is absent or one of the three
    supported ones, and every numeric field that is present holds a number. *)
Definition num_or_absent (cost_model : gmap string value) (key : string) : bool :=
  match cost_model !! key with
  | Some (VStr _) => false
  | _ => true
  end.

Definition supported_type (v : value) : bool :=
  value_is_str v "futures" || value_is_str v "crypto_cex"
  || value_is_str v "crypto_dex".

Definition cost_model_ok (cost_model : gmap string value) : bool :=
  supported_type (dict_get cost_model "type" (VStr "futures"))
  && forallb (num_or_absent cost_model)
       ["commission_per_side"; "slippage_ticks"; "tick_value"; "maker_fee";
        "taker_fee"; "slippage_pct"; "gas_per_trade"].

(** ** Trade simulation *)

(** One row of the DataFrame handed to [simulate_trades]: the OHLC columns and
    the [signal] column added by the strategy.  A DataFrame is a list of rows,
    so all columns have the same length [n = len(df)]. *)
Record Bar := mkBar {
  bar_open : float;
  bar_high : float;
  bar_low : float;
  bar_close : float;
  bar_signal : Z
}.

Record Trade := mkTrade {
  entry_bar : nat;
  exit_bar : nat;
  side : string;         (* "long" or "short" *)
  entry_price : float;
  exit_price : float;
  pnl : float;
  mfe : float;           (* max favorable excursion *)
  mae : float            (* max adverse excursion (negative) *)
}.

(** [arr[i]] on a column.  The simulator only reads indices [i - 1] and [i]
    with [1 <= i < n], which are in range for a column of length [n]. *)
Definition col_float (col : list float) (i : nat) : float := nth i col 0%float.
Definition col_int (col : list Z) (i : nat) : Z := nth i col 0.

(** The local variables of [simulate_trades] that live across loop iterations. *)
Record SimState := mkSim {
  position : Z;          (* 0=flat, 1=long, -1=short *)
  cur_entry_bar : nat;
  cur_entry_price : float;
  running_mfe : float;
  running_mae : float;
  trades : list Trade
}.

Definition sim_init : SimState :=
  {| position := 0; cur_entry_bar := 0%nat; cur_entry_price := 0%float;
     running_mfe := 0%float; running_mae := 0%float; trades := [] |}.

(** Building the [Trade] appended when a position is closed at [exit_price] on
    bar [exit_i]; shared by the in-loop close and the final flush. *)
Definition close_position (cost_model : gmap string value) (st : SimState)
    (exit_i : nat) (exit_price : float) : result Trade :=
  let raw_pnl :=
    if position st =? 1 then (exit_price - cur_entry_price st)%float
    else (cur_entry_price st - exit_price)%float in
  let notional := PrimFloat.abs (cur_entry_price st) in
  rt_cost ← compute_round_trip_cost cost_model notional;
  let net_pnl := (raw_pnl - rt_cost)%float in
  Ok {| entry_bar := cur_entry_bar st;
        exit_bar := exit_i;
        side := if position st =? 1 then "long" else "short";
        entry_price := cur_entry_price st;
        exit_price := exit_price;
        pnl := net_pnl;
        mfe := running_mfe st;
        mae := running_mae st |}.

(** The first half of the loop body: react to a signal change. *)
Definition sim_signal (cost_model : gmap string value) (opens : list float)
    (sig : Z) (i : nat) (st : SimState) : result SimState :=
  if negb (sig =? position st) then
    trades' ←
      (if negb (position st =? 0) then
         t ← close_position cost_model st i (col_float opens i);
         Ok (trades st ++ [t])
       else Ok (trades st));
    if negb (sig =? 0) then
      Ok {| position := sig; cur_entry_bar := i;
            cur_entry_price := col_float opens i;
            running_mfe := 0%float; running_mae := 0%float;
            trades := trades' |}
    else
      Ok {| position := 0; cur_entry_bar := cur_entry_bar st;
            cur_entry_price := cur_entry_price st;
            running_mfe := running_mfe st; running_mae := running_mae st;
            trades := trades' |}
  else Ok st.

(** The second half of the loop body: update MFE / MAE of an open position. *)
Definition sim_excursion (highs lows : list float) (i : nat) (st : SimState)
    : SimState :=
  if negb (position st =? 0) then
    let excursion_high :=
      if position st =? 1 then (col_float highs i - cur_entry_price st)%float
      else (cur_entry_price st - col_float lows i)%float in
    let excursion_low :=
      if position st =? 1 then (col_float lows i - cur_entry_price st)%float
      else (cur_entry_price st - col_float highs i)%float in
    {| position := position st; cur_entry_bar := cur_entry_bar st;
       cur_entry_price := cur_entry_price st;
       running_mfe := py_max (running_mfe st) excursion_high;
       running_mae := py_min (running_mae st) excursion_low;
       trades := trades st |}
  else st.

(** One iteration of [for i in range(1, n)]. *)
Definition sim_step (cost_model : gmap string value) (df : list Bar)
    (st : SimState) (i : nat) : result SimState :=
  let sig := col_int (map bar_signal df) (i - 1) in
  st1 ← sim_signal cost_model (map bar_open df) sig i st;
  Ok (sim_excursion (map bar_high df) (map bar_low df) i st1).

(** The loop over a list of bar indices, stopping at the first exception. *)
Fixpoint sim_loop (cost_model : gmap string value) (df : list Bar)
    (idxs : list nat) (st : SimState) : result SimState :=
  match idxs with
  | [] => Ok st
  | i :: rest =>
      st' ← sim_step cost_model df st i;
      sim_loop cost_model df rest st'
  end.

(** The state after the iterations [i = 1 .. k] of the loop. *)
Definition sim_after (cost_model : gmap string value) (df : list Bar)
    (k : nat) : result SimState :=
  sim_loop cost_model df (seq 1 k) sim_init.

(** ["Close any open position at the last bar's close"]. *)
Definition sim_flush (cost_model : gmap string value) (df : list Bar)
    (st : SimState) : result (list Trade) :=
  if negb (position st =? 0) then
    t ← close_position cost_model st (length df - 1)
          (List.last (map bar_close df) 0%float);
    Ok (trades st ++ [t])
  else Ok (trades st).

Definition simulate_trades (df : list Bar) (cost_model : gmap string value)
    : result (list Trade) :=
  let n := length df in
  st ← sim_after cost_model df (n - 1);
  sim_flush cost_model df st.


(** ** The numeric libraries

    numpy, scipy and the CPython builtins are not part of the repository; the
    operations the engine calls are taken as an interface.  Exceptions they can
    raise are part of the interface where the engine does not guard the call. *)
Class NumericLib := {
  np_sum : list float -> float;                  (* ndarray.sum, np.sum *)
  np_mean : list float -> float;                 (* ndarray.mean, np.mean *)
  np_std : list float -> float;                  (* ndarray.std *)
  np_cumsum : list float -> list float;          (* np.cumsum *)
  np_maximum_accumulate : list float -> list float; (* np.maximum.accumulate *)
  np_max : list float -> float;                  (* ndarray.max, np.max *)
  np_percentile : list float -> float -> result float; (* np.percentile *)
  np_log : float -> float;                       (* np.log *)
  np_power : float -> float -> float;            (* float64 ** float64 *)
  genpareto_fit : list float -> result (float * float * float);
                                                 (* scipy genpareto.fit(_, floc=0) *)
  round_finite : float -> Z -> float             (* round(x, ndigits), x finite *)
}.

Section Engine.
Context {NL : NumericLib}.

(** Builtin [round(x, ndigits)] on a float: "nans and infinities round to
    themselves" (CPython's [float.__round__]); finite values go through the
    decimal rounding of the interface. *)
Definition py_round (x : float) (ndigits : Z) : float :=
  if PrimFloat.is_finite x then round_finite x ndigits else x.

(** [a / b] on Python ints (true division): a zero divisor raises. *)
Definition py_int_truediv (a b : Z) : result float :=
  if b =? 0 then Raise ZeroDivisionError
  else Ok (float_of_Z a / float_of_Z b)%float.

(** ** Metrics computation *)

Record BacktestMetrics := mkMetrics {
  total_pnl : float;
  sharpe_ratio : float;
  max_drawdown : float;
  max_drawdown_dollars : float;
  win_rate : float;
  profit_factor : float;
  total_trades : Z;
  avg_trade_pnl : float;
  avg_winner : float;
  avg_loser : float;
  max_consecutive_losses : Z;
  avg_holding_bars : float;
  expectancy : float;
  calmar_ratio : float
}.

(** [BacktestMetrics()]: every field at its dataclass default. *)
Definition BacktestMetrics_default : BacktestMetrics :=
  {| total_pnl := 0; sharpe_ratio := 0; max_drawdown := 0;
     max_drawdown_dollars := 0; win_rate := 0; profit_factor := 0;
     total_trades := 0; avg_trade_pnl := 0; avg_winner := 0; avg_loser := 0;
     max_consecutive_losses := 0; avg_holding_bars := 0; expectancy := 0;
     calmar_ratio := 0 |}.

Definition len {A} (l : list A) : Z := Z.of_nat (length l).

(** The loop computing the longest run of strictly negative P&L; the
    accumulator is [(max_consec, current_consec)]. *)
Definition consec_step (acc : Z * Z) (p : float) : Z * Z :=
  let '(max_consec, current_consec) := acc in
  if PrimFloat.ltb p 0 then
    let current_consec := current_consec + 1 in
    (Z.max max_consec current_consec, current_consec)
  else (max_consec, 0).

Definition compute_metrics (trades : list Trade) : result BacktestMetrics :=
  match trades with
  | [] => Ok BacktestMetrics_default
  | _ :: _ =>
    let pnls := map pnl trades in
    let total_pnl := np_sum pnls in
    let total_trades := len trades in
    let winners := List.filter (fun p => PrimFloat.ltb 0 p) pnls in
    let losers := List.filter (fun p => PrimFloat.ltb p 0) pnls in
    win_rate ←
      (if 0 <? total_trades then py_int_truediv (len winners) total_trades
       else Ok 0%float);
    let avg_trade_pnl := if 0 <? total_trades then np_mean pnls else 0%float in
    let avg_winner := if 0 <? len winners then np_mean winners else 0%float in
    let avg_loser := if 0 <? len losers then np_mean losers else 0%float in
    let gross_profit := if 0 <? len winners then np_sum winners else 0%float in
    let gross_loss :=
      if 0 <? len losers then PrimFloat.abs (np_sum losers) else 0%float in
    profit_factor ←
      (if PrimFloat.ltb 0 gross_loss then py_truediv gross_profit gross_loss
       else Ok infinity);
    let sharpe_ratio :=
      if (1 <? total_trades) && PrimFloat.ltb 0 (np_std pnls)
      then (np_mean pnls / np_std pnls * PrimFloat.sqrt 252)%float
      else 0%float in
    let equity := np_cumsum pnls in
    let running_max := np_maximum_accumulate equity in
    let drawdowns := zip_with PrimFloat.sub running_max equity in
    let max_dd_dollars := if 0 <? len drawdowns then np_max drawdowns else 0%float in
    let peak := if 0 <? len running_max then np_max running_max else 0%float in
    max_dd_pct ←
      (if PrimFloat.ltb 0 peak then py_truediv max_dd_dollars peak
       else Ok 0%float);
    let max_consec := fst (fold_left consec_step pnls (0, 0)) in
    let holding_bars :=
      map (fun t => Z.of_nat (exit_bar t) - Z.of_nat (entry_bar t)) trades in
    let avg_holding :=
      match holding_bars with
      | [] => 0%float
      | _ :: _ => np_mean (map float_of_Z holding_bars)
      end in
    calmar ←
      (if PrimFloat.ltb 0 max_dd_dollars
       then q ← py_truediv total_pnl max_dd_dollars; Ok (PrimFloat.abs q)
       else Ok 0%float);
    Ok {| total_pnl := py_round total_pnl 2;
          sharpe_ratio := py_round sharpe_ratio 4;
          max_drawdown := py_round max_dd_pct 4;
          max_drawdown_dollars := py_round max_dd_dollars 2;
          win_rate := py_round win_rate 4;
          profit_factor := py_round profit_factor 4;
          total_trades := total_trades;
          avg_trade_pnl := py_round avg_trade_pnl 2;
          avg_winner := py_round avg_winner 2;
          avg_loser := py_round avg_loser 2;
          max_consecutive_losses := max_consec;
          avg_holding_bars := py_round avg_holding 2;
          expectancy := py_round avg_trade_pnl 2;
          calmar_ratio := py_round calmar 4 |}
  end.

(** ** Anti-overfit flags and grading *)

(** One entry [{"month": ..., "pnl": ...}] of the monthly returns. *)
Record MonthlyReturn := mkMonthly {
  month : string;
  month_pnl : float
}.

Record AntiOverfitFlags := mkFlags {
  sharpe_above_3 : bool;
  win_rate_above_80 : bool;
  trades_below_100 : bool;
  no_losing_months : bool
}.

Definition check_overfit_flags (metrics : BacktestMetrics)
    (monthly_returns : list MonthlyReturn) : AntiOverfitFlags :=
  {| sharpe_above_3 := PrimFloat.ltb 3.0 (sharpe_ratio metrics);
     win_rate_above_80 := PrimFloat.ltb 0.80 (win_rate metrics);
     trades_below_100 := total_trades metrics <? 100;
     no_losing_months :=
       match monthly_returns with
       | [] => false
       | _ :: _ =>
         let losing_months :=
           len (List.filter (fun m => PrimFloat.ltb (month_pnl m) 0)
                            monthly_returns) in
         (losing_months =? 0) && (3 <? len monthly_returns)
       end |}.

Definition grade_result (metrics : BacktestMetrics) (flags : AntiOverfitFlags)
    : bool * string :=
  (* REJECT conditions *)
  if sharpe_above_3 flags then (false, "rejected")
  else if win_rate_above_80 flags then (false, "rejected")
  else if total_trades metrics <? 30 then (false, "rejected")
  else if no_losing_months flags then (false, "rejected")
  (* UNDER_REVIEW conditions *)
  else if PrimFloat.leb 1.0 (sharpe_ratio metrics)
          && PrimFloat.leb (sharpe_ratio metrics) 1.5 then (true, "under_review")
  else if PrimFloat.ltb 0.15 (max_drawdown metrics) then (true, "under_review")
  else if (30 <=? total_trades metrics) && (total_trades metrics <=? 100)
       then (true, "under_review")
  (* GOOD conditions *)
  else if PrimFloat.ltb 1.5 (sharpe_ratio metrics)
          && PrimFloat.leb (sharpe_ratio metrics) 3.0
          && PrimFloat.leb (max_drawdown metrics) 0.15
          && (100 <? total_trades metrics)
          && PrimFloat.leb (win_rate metrics) 0.80 then (true, "good")
  else (true, "under_review").

(** The grading step of [run_backtest]: flags first, then the grade. *)
Definition grade (metrics : BacktestMetrics)
    (monthly_returns : list MonthlyReturn) : bool * string :=
  grade_result metrics (check_overfit_flags metrics monthly_returns).

(** ** Walk-forward optimization *)

(** The [wf_config] dict after [main] has checked that ["train_bars"] and
    ["test_bars"] are present; ["step_bars"] is optional. *)
Record WfConfig := mkWfConfig {
  cfg_train_bars : Z;
  cfg_test_bars : Z;
  cfg_step_bars : option Z
}.

Record Fold := mkFold {
  fold : Z;
  train_range : Z * Z;
  test_range : Z * Z;
  in_sample : BacktestMetrics;
  out_of_sample : BacktestMetrics;
  oos_decay_pct : float
}.

Record WfAggregate := mkAggregate {
  avg_oos_sharpe : float;
  avg_oos_pnl : float;
  total_oos_pnl : float;
  avg_oos_decay_pct : float;
  max_oos_decay_pct : float
}.

Record WfReport := mkReport {
  config : WfConfig;
  total_folds : Z;
  folds : list Fold;
  aggregate : WfAggregate
}.

(** [df.iloc[a:b]] with Python's slice rules: a negative bound counts from
    the end, and both bounds are clamped to [0, len]. *)
Definition iloc_slice {A} (df : list A) (a b : Z) : list A :=
  let n := len df in
  let norm i := if i <? 0 then Z.max 0 (i + n) else Z.min i n in
  let lo := norm a in
  let hi := norm b in
  take (Z.to_nat (hi - lo)) (drop (Z.to_nat lo) df).

Section WalkForward.

(** The raw OHLCV rows and the external strategy: [strategy rows] stands for
    loading a fresh [Strategy] instance and running [indicators] then [signals]
    on the slice; it yields the rows with their signal column, or raises. *)
Context {Row : Type}.
Variable strategy : list Row -> result (list Bar).

(** The strategy returns a frame on every slice. *)
Definition strategy_total : Prop :=
  forall rows, exists sdf, strategy rows = Ok sdf.

(** Simulator and metrics on one slice. *)
Definition evaluate_slice (rows : list Row) (cost_model : gmap string value)
    : result BacktestMetrics :=
  sdf ← strategy rows;
  ts ← simulate_trades sdf cost_model;
  compute_metrics ts.

(** The body of the [while] loop for a given [start]. *)
Definition wf_fold (df : list Row) (cost_model : gmap string value)
    (train_bars test_bars : Z) (fold_num start : Z) : result Fold :=
  let total_bars := len df in
  let train_start := start in
  let train_end := start + train_bars in
  let test_start := train_end in
  let test_end := Z.min (train_end + test_bars) total_bars in
  is_metrics ← evaluate_slice (iloc_slice df train_start train_end) cost_model;
  oos_metrics ← evaluate_slice (iloc_slice df test_start test_end) cost_model;
  oos_decay ←
    (if negb (PrimFloat.eqb (sharpe_ratio is_metrics) 0) then
       q ← py_truediv (sharpe_ratio oos_metrics) (sharpe_ratio is_metrics);
       Ok (1.0 - q)%float
     else Ok 0.0%float);
  Ok {| fold := fold_num;
        train_range := (train_start, train_end);
        test_range := (test_start, test_end);
        in_sample := is_metrics;
        out_of_sample := oos_metrics;
        oos_decay_pct := py_round (oos_decay * 100) 2 |}.

(** The [while start + train_bars + test_bars <= total_bars] loop.  Each
    iteration uses one unit of [fuel]; [None] means the fuel ran out while the
    loop condition still held. *)
Fixpoint wf_loop (fuel : nat) (df : list Row) (cost_model : gmap string value)
    (train_bars test_bars step_bars : Z) (start fold_num : Z)
    (acc : list Fold) : option (result (list Fold)) :=
  if start + train_bars + test_bars <=? len df then
    match fuel with
    | O => None
    | S fuel' =>
      let fold_num := fold_num + 1 in
      match wf_fold df cost_model train_bars test_bars fold_num start with
      | Raise e => Some (Raise e)
      | Ok f =>
        wf_loop fuel' df cost_model train_bars test_bars step_bars
                (start + step_bars) fold_num (acc ++ [f])
      end
    end
  else Some (Ok acc).

Definition wf_aggregate (fs : list Fold) : WfAggregate :=
  let all_oos_sharpes := map (fun f => sharpe_ratio (out_of_sample f)) fs in
  let all_oos_pnls := map (fun f => total_pnl (out_of_sample f)) fs in
  let all_decay := map oos_decay_pct fs in
  let nonempty {A} (l : list A) := match l with [] => false | _ => true end in
  {| avg_oos_sharpe :=
       if nonempty all_oos_sharpes then py_round (np_mean all_oos_sharpes) 4
       else 0.0%float;
     avg_oos_pnl :=
       if nonempty all_oos_pnls then py_round (np_mean all_oos_pnls) 2
       else 0.0%float;
     total_oos_pnl :=
       if nonempty all_oos_pnls then py_round (np_sum all_oos_pnls) 2
       else 0.0%float;
     avg_oos_decay_pct :=
       if nonempty all_decay then py_round (np_mean all_decay) 2 else 0.0%float;
     max_oos_decay_pct :=
       if nonempty all_decay then py_round (np_max all_decay) 2 else 0.0%float |}.

Definition run_walk_forward (fuel : nat) (df : list Row)
    (cost_model : gmap string value) (wf_config : WfConfig)
    : option (result WfReport) :=
  let train_bars := cfg_train_bars wf_config in
  let test_bars := cfg_test_bars wf_config in
  let step_bars := default test_bars (cfg_step_bars wf_config) in
  match wf_loop fuel df cost_model train_bars test_bars step_bars 0 0 [] with
  | None => None
  | Some (Raise e) => Some (Raise e)
  | Some (Ok fs) =>
    Some (Ok {| config := wf_config;
                total_folds := len fs;
                folds := fs;
                aggregate := wf_aggregate fs |})
  end.

End WalkForward.

(** ** EVT value at risk ([CryptoRiskModeler.evt_var]) *)




End Engine.

(** * Predicates used in the statements *)

Definition open_at (df : list Bar) (i : nat) : float :=
  col_float (map bar_open df) i.
Definition signal_at (df : list Bar) (i : nat) : Z :=
  col_int (map bar_signal df) i.
Definition last_close (df : list Bar) : float :=
  List.last (map bar_close df) 0%float.

(** [0 <= x] and [x <= 0] as Python evaluates them. *)
Definition nonneg (x : float) : Prop := PrimFloat.leb 0 x = true.
Definition nonpos (x : float) : Prop := PrimFloat.leb x 0 = true.

(** A trade closed inside the loop no later than bar [i]. *)
Definition loop_trade_ok (df : list Bar) (i : nat) (t : Trade) : Prop :=
  (1 <= entry_bar t)%nat /\ (entry_bar t < exit_bar t)%nat /\
  (exit_bar t <= i)%nat /\
  entry_price t = open_at df (entry_bar t) /\
  exit_price t = open_at df (exit_bar t) /\
  nonneg (mfe t) /\ nonpos (mae t).

(** What holds of the loop state once bar [i] has been processed. *)
Definition sim_inv (df : list Bar) (i : nat) (st : SimState) : Prop :=
  Forall (loop_trade_ok df i) (trades st) /\
  (position st <> 0 ->
     (1 <= cur_entry_bar st <= i)%nat /\
     cur_entry_price st = open_at df (cur_entry_bar st)) /\
  nonneg (running_mfe st) /\ nonpos (running_mae st).

(** The signal is 0 before bar [k] and the non-zero value [s] from bar [k]
    on: it goes non-zero once, never returns to 0 and never reverses. *)
Definition single_flip (df : list Bar) (k : nat) (s : Z) : Prop :=
  s <> 0 /\
  (forall j, (j < k)%nat -> signal_at df j = 0) /\
  (forall j, (k <= j < length df)%nat -> signal_at df j = s).

(** The decision series of a frame, that is its signal column with the lag
    applied: what the simulator acts on at each bar.  Bar 0 is never acted on
    and the run starts flat (0); bar [i] acts on [signals[i - 1]], so the last
    signal is never read. *)
Definition decisions (df : list Bar) : list Z :=
  match df with
  | [] => []
  | _ :: _ => 0 :: removelast (map bar_signal df)
  end.

(** Two frames with the same price columns. *)
Definition same_prices (df df' : list Bar) : Prop :=
  map bar_open df = map bar_open df' /\ map bar_high df = map bar_high df' /\
  map bar_low df = map bar_low df' /\ map bar_close df = map bar_close df'.

(** * Concrete inputs *)

(** A bar whose open, high, low and close are all the price [p]. *)
Definition flat_bar (p : float) (sg : Z) : Bar := mkBar p p p p sg.

(** Prices [100,101,99,102,105] with the signal column [0,1,1,1,0]. *)
Definition round_trip_df : list Bar :=
  [flat_bar 100 0; flat_bar 101 1; flat_bar 99 1; flat_bar 102 1; flat_bar 105 0].

(** The same opens, closes and signals with arbitrary highs and lows. *)
Definition round_trip_frame (highs lows : nat -> float) : list Bar :=
  [mkBar 100 (highs 0%nat) (lows 0%nat) 100 0;
   mkBar 101 (highs 1%nat) (lows 1%nat) 101 1;
   mkBar 99 (highs 2%nat) (lows 2%nat) 99 1;
   mkBar 102 (highs 3%nat) (lows 3%nat) 102 1;
   mkBar 105 (highs 4%nat) (lows 4%nat) 105 0].

(** The prices and the series of the round-trip scenario. *)
Definition round_trip_prices : list float := [100; 101; 99; 102; 105]%float.
Definition round_trip_series : list Z := [0; 1; 1; 1; 0].

(** The same prices with the signal column [1,1,1,0,0], whose decision series
    is [0,1,1,1,0]. *)
Definition lagged_round_trip_df : list Bar :=
  [flat_bar 100 1; flat_bar 101 1; flat_bar 99 1; flat_bar 102 0; flat_bar 105 0].

(** The same prices with a signal that goes long on bar 1 and stays long. *)
Definition hold_df : list Bar :=
  [flat_bar 100 0; flat_bar 101 1; flat_bar 99 1; flat_bar 102 1; flat_bar 105 1].

(** The signal first becomes non-zero on the final bar. *)
Definition last_bar_flip_df : list Bar := [flat_bar 100 0; flat_bar 101 1].


(** Two trades, one winning and one flat. *)
Definition winning_trades : list Trade :=
  [ {| entry_bar := 1; exit_bar := 3; side := "long"; entry_price := 100;
       exit_price := 130; pnl := 12.5; mfe := 30; mae := -2 |};
    {| entry_bar := 4; exit_bar := 6; side := "short"; entry_price := 130;
       exit_price := 112.5; pnl := 0; mfe := 20; mae := -1 |} ].


(** A small executable instance of the numeric interface, used to run the
    engine on concrete inputs.  It is not numpy: sums go left to right,
    percentiles take the lower neighbour of the sorted array, nothing is
    rounded, and there is no logarithm, power or GPD fit. *)
Module PlainLib.

Definition sum (xs : list float) : float := fold_left PrimFloat.add xs 0%float.

Definition mean (xs : list float) : float :=
  (sum xs / float_of_Z (Z.of_nat (length xs)))%float.

Definition std (xs : list float) : float :=
  let m := mean xs in
  PrimFloat.sqrt (mean (map (fun x => ((x - m) * (x - m))%float) xs)).

Fixpoint scan (f : float -> float -> float) (acc : float) (xs : list float)
    : list float :=
  match xs with
  | [] => []
  | x :: rest => let acc' := f acc x in acc' :: scan f acc' rest
  end.

Definition maximum (a b : float) : float :=
  if PrimFloat.leb b a || PrimFloat.is_nan a then a else b.

Definition cumsum (xs : list float) : list float := scan PrimFloat.add 0%float xs.

Definition maximum_accumulate (xs : list float) : list float :=
  match xs with
  | [] => []
  | x :: rest => x :: scan maximum x rest
  end.

Definition max (xs : list float) : float :=
  match xs with
  | [] => nan
  | x :: rest => fold_left maximum rest x
  end.

Fixpoint insert (x : float) (sorted : list float) : list float :=
  match sorted with
  | [] => [x]
  | y :: rest => if PrimFloat.leb x y then x :: sorted else y :: insert x rest
  end.

Definition sort (xs : list float) : list float := fold_right insert [] xs.

Definition percentile (xs : list float) (q : float) : result float :=
  match xs with
  | [] => Raise (LibraryError "percentile of an empty array")
  | _ :: _ =>
    if PrimFloat.leb 0 q && PrimFloat.leb q 100 then
      let n := length xs in
      let pos := (q / 100 * float_of_Z (Z.of_nat (n - 1)))%float in
      let rank :=
        length (List.filter (fun i => PrimFloat.leb (float_of_Z (Z.of_nat i)) pos)
                            (seq 1 (n - 1))) in
      Ok (nth rank (sort xs) 0%float)
    else Raise (LibraryError "percentiles must be in the range [0, 100]")
  end.

Definition lib : NumericLib :=
  {| np_sum := sum; np_mean := mean; np_std := std; np_cumsum := cumsum;
     np_maximum_accumulate := maximum_accumulate; np_max := max;
     np_percentile := percentile;
     np_log := fun _ => nan; np_power := fun _ _ => nan;
     genpareto_fit := fun _ => Raise (LibraryError "no GPD fit");
     round_finite := fun x _ => x |}.

End PlainLib.




(** Train on 2 bars, test on 1, slide by 1. *)
Definition small_wf_config : WfConfig :=
  {| cfg_train_bars := 2; cfg_test_bars := 1; cfg_step_bars := Some 1 |}.

(** A strategy whose rows already carry their signal. *)
Definition ready_strategy (rows : list Bar) : result (list Bar) := Ok rows.

(** * Claims as the specification words them, where the code differs *)



(** "Exactly one trade entering at bar 1's open (101) and exiting at bar 4's
    open (102), net_pnl = -16.5", for some frame with the scenario's opens and
    closes whose series [0,1,1,1,0] is read either as the decisions (lag
    applied) or as the signal column itself. *)
Definition round_trip_claim_as_stated : Prop :=
  exists df t,
    map bar_open df = round_trip_prices /\
    map bar_close df = round_trip_prices /\
    (decisions df = round_trip_series \/ map bar_signal df = round_trip_series) /\
    simulate_trades df DEFAULT_FUTURES_COST = Ok [t] /\
    entry_bar t = 1%nat /\ entry_price t = 101%float /\
    exit_bar t = 4%nat /\ exit_price t = 102%float /\ pnl t = (-16.5)%float.


(** "Given any cost model whose type tag is not one of the supported variants,
    fails naming the unknown type; never silently defaults." *)
Definition cost_error_claim_as_stated : Prop :=
  forall (cm : gmap string value) (notional : float),
    cm !! "type" <> Some (VStr "futures") ->
    cm !! "type" <> Some (VStr "crypto_cex") ->
    cm !! "type" <> Some (VStr "crypto_dex") ->
    exists e, compute_round_trip_cost cm notional = Raise e.

(** * The grade decision table, following the specification's words

    "Decision table, evaluated top-to-bottom (first match wins)": rules 1-4
    reject, rule 5 is under review, rule 6 is good, rule 7 is the default. *)

Inductive Grade := GOOD | UNDER_REVIEW | REJECTED.

Definition grade_name (g : Grade) : string :=
  match g with
  | GOOD => "good"
  | UNDER_REVIEW => "under_review"
  | REJECTED => "rejected"
  end.

Definition spec_grade_table (m : BacktestMetrics)
    (monthly_pnls : list MonthlyReturn) : bool * Grade :=
  let sharpe := sharpe_ratio m in
  let losing_months :=
    len (List.filter (fun r => PrimFloat.ltb (month_pnl r) 0) monthly_pnls) in
  if PrimFloat.ltb 3.0 sharpe then (false, REJECTED)                  (* 1 *)
  else if PrimFloat.ltb 0.80 (win_rate m) then (false, REJECTED)      (* 2 *)
  else if total_trades m <? 30 then (false, REJECTED)                 (* 3 *)
  else if (losing_months =? 0) && (3 <? len monthly_pnls)
       then (false, REJECTED)                                         (* 4 *)
  else if (PrimFloat.leb 1.0 sharpe && PrimFloat.leb sharpe 1.5)
          || PrimFloat.ltb 0.15 (max_drawdown m)
          || ((30 <=? total_trades m) && (total_trades m <=? 100))
       then (true, UNDER_REVIEW)                                      (* 5 *)
  else if PrimFloat.ltb 1.5 sharpe && PrimFloat.leb sharpe 3.0
          && PrimFloat.leb (max_drawdown m) 0.15
          && (100 <? total_trades m)
          && PrimFloat.leb (win_rate m) 0.80
       then (true, GOOD)                                              (* 6 *)
  else (true, UNDER_REVIEW).                                          (* 7 *)

(** A metrics bundle with the four graded fields set and the rest at 0. *)
Definition graded_metrics (sharpe dd win : float) (n : Z) : BacktestMetrics :=
  {| total_pnl := 0; sharpe_ratio := sharpe; max_drawdown := dd;
     max_drawdown_dollars := 0; win_rate := win; profit_factor := 0;
     total_trades := n; avg_trade_pnl := 0; avg_winner := 0; avg_loser := 0;
     max_consecutive_losses := 0; avg_holding_bars := 0; expectancy := 0;
     calmar_ratio := 0 |}.

(** Five months of history, one of them losing. *)
Definition mixed_months : list MonthlyReturn :=
  [mkMonthly "2024-01" 120; mkMonthly "2024-02" (-40); mkMonthly "2024-03" 75;
   mkMonthly "2024-04" 10; mkMonthly "2024-05" 55].

(** * The fold count, following the specification's words

    "[floor((L - train - test) / step) + 1] when [L >= train + test], else 0". *)
Definition fold_count (L train_bars test_bars step_bars : Z) : Z :=
  if train_bars + test_bars <=? L
  then (L - train_bars - test_bars) / step_bars + 1
  else 0.

(** [w] holds the rows of [df] at the positions [[a, b)], in order. *)
Definition is_window {A} (df : list A) (a b : Z) (w : list A) : Prop :=
  len w = b - a /\
  forall i, 0 <= i < b - a -> w !! Z.to_nat i = df !! Z.to_nat (a + i).

(** [m] is the metrics bundle of the trades that the strategy's signals on
    [rows] give under [cost_model]. *)
Definition evaluated_on {NL : NumericLib} {Row : Type}
    (strategy : list Row -> result (list Bar)) (cost_model : gmap string value)
    (rows : list Row) (m : BacktestMetrics) : Prop :=
  exists sdf ts,
    strategy rows = Ok sdf /\ simulate_trades sdf cost_model = Ok ts /\
    compute_metrics ts = Ok m.

(** Fold [f] trains on the rows [[lo, lo + train_bars)] of [df] and tests on
    the next [test_bars] rows. *)
Definition fold_on_windows {NL : NumericLib} {Row : Type}
    (strategy : list Row -> result (list Bar)) (cost_model : gmap string value)
    (df : list Row) (train_bars test_bars lo : Z) (f : Fold) : Prop :=
  exists train_df test_df,
    is_window df lo (lo + train_bars) train_df /\
    is_window df (lo + train_bars) (lo + train_bars + test_bars) test_df /\
    evaluated_on strategy cost_model train_df (in_sample f) /\
    evaluated_on strategy cost_model test_df (out_of_sample f).

(** The report with no fold: ["total_folds": 0] and every aggregate [0.0]. *)
Definition empty_report (wf_config : WfConfig) : WfReport :=
  {| config := wf_config; total_folds := 0; folds := [];
     aggregate := {| avg_oos_sharpe := 0; avg_oos_pnl := 0; total_oos_pnl := 0;
                     avg_oos_decay_pct := 0; max_oos_decay_pct := 0 |} |}.

(** * More of the runner: monthly returns, equity curve, the backtest

    [load_data] and [load_strategy] read files and are external: the loaded
    rows, the strategy and the frame's ["timestamp"] column are inputs. *)

(** [series.iloc[idx]] for an int [idx]: a negative index counts from the end,
    an index out of bounds raises IndexError. *)
Definition iloc {A} (col : list A) (idx : Z) : result A :=
  let i := if idx <? 0 then idx + len col else idx in
  match (if (0 <=? i) && (i <? len col) then col !! Z.to_nat i else None) with
  | Some x => Ok x
  | None =>
    Raise (LibraryError "IndexError: single positional indexer is out-of-bounds")
  end.

(** [range(0, stop, step)]: a zero step raises ValueError, a negative step
    gives the empty range, a positive one the multiples of [step] below
    [stop]. *)
Definition range_from_0 (stop : nat) (step : Z) : result (list nat) :=
  if step =? 0 then
    Raise (LibraryError "ValueError: range() arg 3 must not be zero")
  else if step <? 0 then Ok []
  else
    let count := Z.to_nat ((Z.of_nat stop + step - 1) / step) in
    Ok (map (fun k => (k * Z.to_nat step)%nat) (seq 0 count)).

(** The order [sorted] puts on the items of a dict with string keys. *)
Definition key_le (a b : string * float) : Prop := String.leb a.1 b.1 = true.

#[global] Instance key_le_dec a b : Decision (key_le a b).
Proof. unfold key_le. apply _. Defined.

(** One point ["bar": i, "equity": e] of the sampled curve. *)
Record EquityPoint := mkPoint {
  point_bar : nat;
  point_equity : float
}.

Section Reports.
Context {NL : NumericLib}.

(** The cells of the ["timestamp"] column are pandas objects, a Timestamp or
    the missing value NaT (what [pd.to_datetime] makes of a blank cell).
    [strftime_Ym ts] is [ts.strftime("%Y-%m")] and [date_str ts] is
    [str(ts.date())]: both raise on a cell that does not support the call, as
    NaT does with a ValueError.  [np_round x ndigits] is [round(x, ndigits)] on
    a numpy float64, which is numpy's rounding and not the builtin's. *)
Context {Timestamp : Type}.
Variable strftime_Ym : Timestamp -> result string.
Variable date_str : Timestamp -> result string.
Variable np_round : float -> Z -> float.

(** The body of the loop over trades in [compute_monthly_returns]. *)
Definition monthly_add (col : list Timestamp) (monthly : gmap string float)
    (t : Trade) : result (gmap string float) :=
  let idx := Z.min (Z.of_nat (exit_bar t)) (len col - 1) in
  ts ← iloc col idx;
  key ← strftime_Ym ts;
  Ok (<[key := (default 0.0%float (monthly !! key) + pnl t)%float]> monthly).

Fixpoint monthly_loop (col : list Timestamp) (monthly : gmap string float)
    (trades : list Trade) : result (gmap string float) :=
  match trades with
  | [] => Ok monthly
  | t :: rest =>
      monthly' ← monthly_add col monthly t;
      monthly_loop col monthly' rest
  end.

(** The month key a trade is booked under: the month of the timestamp at its
    exit bar, clamped to the last row, when that cell formats. *)
Definition booked_under (col : list Timestamp) (t : Trade) (k : string) : Prop :=
  exists x, col !! Nat.min (exit_bar t) (length col - 1) = Some x /\
            strftime_Ym x = Ok k.

(** Both calls made on a cell of the column return. *)
Definition cell_formats (x : Timestamp) : Prop :=
  (exists k, strftime_Ym x = Ok k) /\ (exists d, date_str x = Ok d).

(** [timestamp_col] is [df["timestamp"]] when the frame has that column; its
    length is [len(df)]. *)
Definition compute_monthly_returns (trades : list Trade)
    (timestamp_col : option (list Timestamp)) : result (list MonthlyReturn) :=
  match trades, timestamp_col with
  | [], _ => Ok []
  | _ :: _, None => Ok []
  | _ :: _, Some col =>
      monthly ← monthly_loop col ∅ trades;
      Ok (map (fun kv => mkMonthly kv.1 (np_round kv.2 2))
              (merge_sort key_le (map_to_list monthly)))
  end.

(** [bar_pnl[t.exit_bar] += t.pnl] under its guard. *)
Definition bar_pnl_add (total_bars : nat) (bar_pnl : list float) (t : Trade)
    : list float :=
  if (exit_bar t <? total_bars)%nat then
    <[exit_bar t := (col_float bar_pnl (exit_bar t) + pnl t)%float]> bar_pnl
  else bar_pnl.

(** [equity[i]] is read at indices below [total_bars], the length of
    [np.cumsum(bar_pnl)]. *)
Definition compute_equity_curve (trades : list Trade) (total_bars : nat)
    (sample_every : Z) : result (list EquityPoint) :=
  let bar_pnl :=
    fold_left (bar_pnl_add total_bars) trades (replicate total_bars 0%float) in
  let equity := np_cumsum bar_pnl in
  idxs ← range_from_0 total_bars sample_every;
  let points :=
    map (fun i => {| point_bar := i;
                     point_equity := py_round (col_float equity i) 2 |}) idxs in
  if (0 <? total_bars)%nat
     && negb ((Z.of_nat total_bars - 1) mod sample_every =? 0)
  then Ok (points ++ [ {| point_bar := total_bars - 1;
                          point_equity := py_round (List.last equity 0%float) 2 |} ])
  else Ok points.

(** The ["date_range"] of [run_backtest]: the dates of the first and the last
    row of the frame the strategy returned, or the empty dict. *)
Definition compute_date_range (n_rows : nat)
    (timestamp_col : option (list Timestamp)) : result (option (string * string)) :=
  match timestamp_col with
  | Some col =>
    if (0 <? n_rows)%nat then
      first ← iloc col 0;
      start ← date_str first;
      final ← iloc col (-1);
      end_ ← date_str final;
      Ok (Some (start, end_))
    else Ok None
  | None => Ok None
  end.

(** The result dict of [run_backtest], without the keys that echo its inputs
    ([strategy_name], [data_file], [cost_model]). *)
Record BacktestResult := mkBacktestResult {
  bars_tested : nat;
  res_date_range : option (string * string);
  res_metrics : BacktestMetrics;
  res_monthly_returns : list MonthlyReturn;
  res_equity_curve : list EquityPoint;
  res_trade_log : list Trade;
  res_anti_overfit_flags : AntiOverfitFlags;
  res_pass : bool;
  res_grade : string
}.

(** One entry of the trade log: the trade with its prices rounded. *)
Definition trade_log_entry (t : Trade) : Trade :=
  {| entry_bar := entry_bar t; exit_bar := exit_bar t; side := side t;
     entry_price := np_round (entry_price t) 4;
     exit_price := np_round (exit_price t) 4;
     pnl := np_round (pnl t) 2; mfe := np_round (mfe t) 2;
     mae := np_round (mae t) 2 |}.

(** [run_backtest] from the loaded frame [df] on.  [strategy_frame rows] stands
    for [strategy.indicators] then [strategy.signals]: it yields the rows with
    their signal and the ["timestamp"] column of the frame, if it has one. *)
Context {Row : Type}.
Variable strategy_frame :
  list Row -> result (list Bar * option (list Timestamp)).

Definition run_backtest (df : list Row) (cost_model : gmap string value)
    : result BacktestResult :=
  let total_bars := length df in
  frame ← strategy_frame df;
  trades ← simulate_trades frame.1 cost_model;
  metrics ← compute_metrics trades;
  monthly_returns ← compute_monthly_returns trades frame.2;
  let sample_interval := Z.max 10 (Z.of_nat total_bars / 100) in
  equity_curve ← compute_equity_curve trades total_bars sample_interval;
  let trade_log := map trade_log_entry trades in
  date_range ← compute_date_range (length frame.1) frame.2;
  let flags := check_overfit_flags metrics monthly_returns in
  let graded := grade_result metrics flags in
  Ok {| bars_tested := total_bars;
        res_date_range := date_range;
        res_metrics := metrics;
        res_monthly_returns := monthly_returns;
        res_equity_curve := equity_curve;
        res_trade_log := trade_log;
        res_anti_overfit_flags := flags;
        res_pass := graded.1;
        res_grade := graded.2 |}.

End Reports.

(** * Further predicates on runs of the simulator *)

(** Trade [t1] is over no later than [t2] begins. *)
Definition before (t1 t2 : Trade) : Prop := (exit_bar t1 <= entry_bar t2)%nat.

(** The side and the P&L of a trade as they follow from the frame and the
    cost model: [sg] is the signal of the bar before the entry bar. *)
Definition trade_accounted (cm : gmap string value) (df : list Bar)
    (t : Trade) : Prop :=
  let sg := signal_at df (entry_bar t - 1) in
  (1 <= entry_bar t)%nat /\ sg <> 0 /\
  side t = (if sg =? 1 then "long" else "short") /\
  exists c,
    compute_round_trip_cost cm (PrimFloat.abs (entry_price t)) = Ok c /\
    pnl t = ((if (sg =? 1)%Z then exit_price t - entry_price t
              else entry_price t - exit_price t) - c)%float.

(** 1 while a position is open, 0 when flat. *)
Definition open_count (st : SimState) : nat :=
  if position st =? 0 then 0%nat else 1%nat.

(** What the loop state keeps, beyond [sim_inv], once bar [i] is processed. *)
Definition sim_inv_ext (cm : gmap string value) (df : list Bar) (i : nat)
    (st : SimState) : Prop :=
  sim_inv df i st /\
  StronglySorted before (trades st) /\
  (position st <> 0 ->
     Forall (fun t => (exit_bar t <= cur_entry_bar st)%nat) (trades st)) /\
  (position st <> 0 -> position st = signal_at df (cur_entry_bar st - 1)) /\
  Forall (trade_accounted cm df) (trades st) /\
  (length (trades st) + open_count st <= i)%nat.

(** Long on bar 0's signal, reversed by bar 1's, flat from bar 2's. *)
Definition reversal_df : list Bar :=
  [mkBar 100 101 99 100 1; mkBar 102 104 101 103 (-1); mkBar 98 99 95 96 0;
   mkBar 97 98 96 97 0].

Definition reversal_trades : list Trade :=
  Eval vm_compute in
    match simulate_trades reversal_df DEFAULT_FUTURES_COST with
    | Ok ts => ts
    | Raise _ => []
    end.

(** The number of strictly negative values. *)
Definition losing (pnls : list float) : Z :=
  len (List.filter (fun p => PrimFloat.ltb p 0) pnls).

(** The four conditions of the GOOD bucket of [grade_result]. *)
Definition good_conditions (m : BacktestMetrics) : bool :=
  PrimFloat.ltb 1.5 (sharpe_ratio m) && PrimFloat.leb (sharpe_ratio m) 3.0
  && PrimFloat.leb (max_drawdown m) 0.15 && (100 <? total_trades m)
  && PrimFloat.leb (win_rate m) 0.80.

(** A cost model with a type the runner does not know. *)
Definition unknown_cost_model : gmap string value :=
  <["type" := VStr "equities"]> ∅.

(** * Inputs for the reports *)

(** ISO dates as timestamps, [None] for NaT: the month key is the first seven
    characters, the date the first ten. *)
Definition iso_month (cell : option string) : result string :=
  match cell with
  | Some date => Ok (String.substring 0 7 date)
  | None => Raise (LibraryError "ValueError: NaTType does not support strftime")
  end.

Definition iso_date (cell : option string) : result string :=
  match cell with
  | Some date => Ok (String.substring 0 10 date)
  | None => Raise (LibraryError "ValueError: NaTType does not support date")
  end.

Definition reversal_dates : list (option string) :=
  [Some "2024-01-30"; Some "2024-01-31"; Some "2024-02-01"; Some "2024-02-02"].

(** The same column with a blank cell on the last row. *)
Definition blank_last_dates : list (option string) :=
  [Some "2024-01-30"; Some "2024-01-31"; Some "2024-02-01"; None].

(** A strategy whose rows already carry their signal, on a frame whose
    ["timestamp"] column is [reversal_dates]. *)
Definition dated_frame (rows : list Bar)
    : result (list Bar * option (list (option string))) :=
  Ok (rows, Some reversal_dates).

(** A rounding that keeps its argument. *)
Definition keep_value (x : float) (ndigits : Z) : float := x.

(** No test bars and no step: [step_bars] defaults to [test_bars = 0]. *)
Definition zero_step_config : WfConfig :=
  {| cfg_train_bars := 2; cfg_test_bars := 0; cfg_step_bars := None |}.

(** * Exchange fee schedules ([lib/crypto/cost_model.py]) *)

(** A schedule [{"maker": m, "taker": t}]. *)
Definition fee_schedule (maker taker : float) : gmap string float :=
  <["maker" := maker]> (<["taker" := taker]> ∅).

Definition BINANCE_TIERS : gmap Z (gmap string float) :=
  <[0 := fee_schedule 0.0002 0.0005]>
  (<[1 := fee_schedule 0.00016 0.0004]>
  (<[2 := fee_schedule 0.00014 0.000375]>
  (<[3 := fee_schedule 0.00012 0.00035]>
  (<[4 := fee_schedule 0.0001 0.000325]>
  (<[5 := fee_schedule 0.00008 0.0003]>
  (<[6 := fee_schedule 0.00006 0.00025]>
  (<[7 := fee_schedule 0.00004 0.0002]>
  (<[8 := fee_schedule 0.00002 0.00018]>
  (<[9 := fee_schedule (-0.00001) 0.00015]> ∅))))))))).

Definition BYBIT_TIERS : gmap Z (gmap string float) :=
  <[0 := fee_schedule 0.0002 0.00055]>
  (<[1 := fee_schedule 0.00018 0.0004]>
  (<[2 := fee_schedule 0.00016 0.000375]>
  (<[3 := fee_schedule 0.00014 0.00035]>
  (<[4 := fee_schedule 0.0001 0.00032]>
  (<[5 := fee_schedule (-0.00005) 0.00025]> ∅))))).

Definition OKX_TIERS : gmap Z (gmap string float) :=
  <[0 := fee_schedule 0.0002 0.0005]>
  (<[1 := fee_schedule 0.00016 0.00045]>
  (<[2 := fee_schedule 0.00014 0.0004]>
  (<[3 := fee_schedule 0.00012 0.00035]>
  (<[4 := fee_schedule 0.0001 0.0003]>
  (<[5 := fee_schedule 0.00008 0.00025]> ∅))))).

Definition HYPERLIQUID_TIERS : gmap Z (gmap string float) :=
  <[0 := fee_schedule 0.0002 0.0005]>
  (<[1 := fee_schedule 0.00015 0.00045]>
  (<[2 := fee_schedule 0.0001 0.0004]> ∅)).

Definition EXCHANGE_FEES : gmap string (gmap Z (gmap string float)) :=
  <["binance" := BINANCE_TIERS]>
  (<["bybit" := BYBIT_TIERS]>
  (<["okx" := OKX_TIERS]>
  (<["hyperliquid" := HYPERLIQUID_TIERS]> ∅))).

(** [max(tiers.keys())]: raises ValueError on an empty dict. *)
Definition max_key {V} (tiers : gmap Z V) : result Z :=
  match (map_to_list tiers).*1 with
  | [] => Raise (LibraryError "ValueError: max() arg is an empty sequence")
  | k :: rest => Ok (fold_left Z.max rest k)
  end.

Section FeeSchedule.

(** [str_lower s] is [s.lower()]. *)
Variable str_lower : string -> string.

Definition get_fee_schedule (exchange : string) (vip_tier : Z)
    : result (gmap string float) :=
  let exchange_lower := str_lower exchange in
  match EXCHANGE_FEES !! exchange_lower with
  | None => Ok (fee_schedule 0.0002 0.0005)
  | Some tiers =>
    match tiers !! vip_tier with
    | Some schedule => Ok schedule
    | None =>
      (* Clamp to the highest known tier. *)
      best_tier ← max_key tiers;
      match tiers !! best_tier with
      | Some schedule => Ok schedule
      | None => Raise (LibraryError "KeyError")
      end
    end
  end.

End FeeSchedule.

(** * Excursions of a bar *)

Definition high_at (df : list Bar) (j : nat) : float :=
  col_float (map bar_high df) j.
Definition low_at (df : list Bar) (j : nat) : float :=
  col_float (map bar_low df) j.

(** The favourable and adverse excursion of bar [j] for a position entered at
    [entry]: [excursion_high] and [excursion_low] of the loop body. *)
Definition favourable (df : list Bar) (long : bool) (entry : float) (j : nat)
    : float :=
  if long then (high_at df j - entry)%float else (entry - low_at df j)%float.
Definition adverse (df : list Bar) (long : bool) (entry : float) (j : nat)
    : float :=
  if long then (low_at df j - entry)%float else (entry - high_at df j)%float.

(** No bar from [first] up to, but not including, [stop] has a favourable
    excursion greater than [mfe_v], or an adverse excursion smaller than
    [mae_v], as Python compares them. *)
Definition excursions_cover (df : list Bar) (long : bool) (entry : float)
    (first stop : nat) (mfe_v mae_v : float) : Prop :=
  forall j, (first <= j < stop)%nat ->
    PrimFloat.ltb mfe_v (favourable df long entry j) = false /\
    PrimFloat.ltb (adverse df long entry j) mae_v = false.

Definition trade_excursions_ok (df : list Bar) (t : Trade) : Prop :=
  excursions_cover df (String.eqb (side t) "long") (entry_price t)
    (entry_bar t) (exit_bar t) (mfe t) (mae t).

(** The running excursions cover the bars from the entry to bar [i]. *)
Definition exc_inv (df : list Bar) (i : nat) (st : SimState) : Prop :=
  Forall (trade_excursions_ok df) (trades st) /\
  (position st <> 0 ->
   excursions_cover df (position st =? 1) (cur_entry_price st)
     (cur_entry_bar st) (S i) (running_mfe st) (running_mae st)).

(** * Leverage advice ([lib/crypto/risk_modeler.py]) *)

Definition CRYPTO_MARGIN_BUFFER_MULTIPLE : float := 2.5.
Definition MAX_LEVERAGE_CAP : float := 20.0.

Definition margin_buffer_ok (leverage buffer_multiple : float) : result bool :=
  if PrimFloat.leb leverage 0 then Ok true   (* No leverage = always OK *)
  else
    maintenance_margin ← py_truediv 1.0 leverage;
    let required_buffer := (maintenance_margin * buffer_multiple)%float in
    Ok (PrimFloat.leb required_buffer 1.0).

Definition max_recommended_leverage (daily_volatility cascade_risk : float)
    : result float :=
  (* Ensure minimum volatility to avoid division by zero *)
  let safe_vol := py_max daily_volatility 0.01 in
  base_leverage ← py_truediv 1.0 (3.0 * safe_vol);
  let cascade_discount := (1.0 - cascade_risk * 0.5)%float in
  let recommended := (base_leverage * cascade_discount)%float in
  Ok (py_min recommended MAX_LEVERAGE_CAP).

(** * Properties *)

(** ** Facts on binary64 comparisons *)

Lemma float_lt_keeps_nonneg (m x : float) :
  PrimFloat.leb 0 m = true -> PrimFloat.ltb m x = true -> PrimFloat.leb 0 x = true.
Proof.
  rewrite !FloatAxioms.leb_spec, FloatAxioms.ltb_spec. change (Prim2SF 0) with (S754_zero false).
  destruct (Prim2SF m) as [[]|[]| |[] ? ?], (Prim2SF x) as [[]|[]| |[] ? ?];
    cbn; congruence.
Qed.

Lemma float_lt_keeps_nonpos (m x : float) :
  PrimFloat.leb m 0 = true -> PrimFloat.ltb x m = true -> PrimFloat.leb x 0 = true.
Proof.
  rewrite !FloatAxioms.leb_spec, FloatAxioms.ltb_spec. change (Prim2SF 0) with (S754_zero false).
  destruct (Prim2SF m) as [[]|[]| |[] ? ?], (Prim2SF x) as [[]|[]| |[] ? ?];
    cbn; congruence.
Qed.

Lemma float_pos_nonzero (b : float) :
  PrimFloat.ltb 0 b = true -> PrimFloat.eqb b 0 = false.
Proof.
  rewrite FloatAxioms.ltb_spec, FloatAxioms.eqb_spec. change (Prim2SF 0) with (S754_zero false).
  destruct (Prim2SF b) as [[]|[]| |[] ? ?]; cbn; congruence.
Qed.

Lemma py_max_nonneg (m x : float) :
  PrimFloat.leb 0 m = true -> PrimFloat.leb 0 (py_max m x) = true.
Proof.
  intros Hm. unfold py_max. destruct (PrimFloat.ltb m x) eqn:E; [|exact Hm].
  eapply float_lt_keeps_nonneg; eauto.
Qed.

Lemma py_min_nonpos (m x : float) :
  PrimFloat.leb m 0 = true -> PrimFloat.leb (py_min m x) 0 = true.
Proof.
  intros Hm. unfold py_min. destruct (PrimFloat.ltb x m) eqn:E; [|exact Hm].
  eapply float_lt_keeps_nonpos; eauto.
Qed.

Lemma py_truediv_pos (a b : float) :
  PrimFloat.ltb 0 b = true -> py_truediv a b = Ok (a / b)%float.
Proof. intros H. unfold py_truediv. now rewrite (float_pos_nonzero _ H). Qed.

(** ** The cost model *)

Lemma bind_ok {A B} (m : result A) (f : A -> result B) (b : B) :
  m ≫= f = Ok b -> exists a, m = Ok a /\ f a = Ok b.
Proof. destruct m as [a|e]; cbn; [eauto | discriminate]. Qed.

Lemma as_num_dict_get (cm : gmap string value) key x :
  num_or_absent cm key = true ->
  exists y, as_num (dict_get cm key (VNum x)) = Ok y.
Proof.
  unfold num_or_absent, dict_get. destruct (cm !! key) as [[s|y]|]; cbn;
    [discriminate | eauto | eauto].
Qed.

Lemma cost_model_ok_total (cm : gmap string value) (notional : float) :
  cost_model_ok cm = true -> exists c, compute_round_trip_cost cm notional = Ok c.
Proof.
  unfold cost_model_ok, supported_type. intros H.
  apply andb_prop in H as [Ht Hn]. cbn in Hn.
  repeat (apply andb_prop in Hn as [? Hn]).
  unfold compute_round_trip_cost.
  repeat match goal with
  | H : num_or_absent cm ?k = true |- _ =>
      let y := fresh "y" in let E := fresh "E" in
      pose proof (fun x => as_num_dict_get cm k x H) as E; clear H
  end.
  repeat match goal with
  | E : forall x, exists y, as_num (dict_get cm ?k (VNum x)) = Ok y |- context [as_num (dict_get cm ?k (VNum ?d))] =>
      let y := fresh "y" in let Ey := fresh "Ey" in
      destruct (E d) as [y Ey]; rewrite Ey
  end.
  destruct (value_is_str _ "futures"); [cbn; eauto|].
  destruct (value_is_str _ "crypto_cex"); [cbn; eauto|].
  destruct (value_is_str _ "crypto_dex"); [cbn; eauto|].
  discriminate.
Qed.

(** ** The simulator: one step *)

Lemma close_position_fields cm st i p t :
  close_position cm st i p = Ok t ->
  entry_bar t = cur_entry_bar st /\ exit_bar t = i /\
  entry_price t = cur_entry_price st /\ exit_price t = p /\
  mfe t = running_mfe st /\ mae t = running_mae st.
Proof.
  unfold close_position. intros H.
  apply bind_ok in H as (c & _ & H). injection H as <-. cbn. tauto.
Qed.

Lemma close_position_total cm st i p :
  cost_model_ok cm = true -> exists t, close_position cm st i p = Ok t.
Proof.
  intros Hcm. unfold close_position.
  destruct (cost_model_ok_total cm (PrimFloat.abs (cur_entry_price st)) Hcm)
    as [c ->].
  cbn. eauto.
Qed.

Lemma loop_trade_ok_mono df i j t :
  (i <= j)%nat -> loop_trade_ok df i t -> loop_trade_ok df j t.
Proof. unfold loop_trade_ok. intuition lia. Qed.

Lemma sim_inv_mono df i st : sim_inv df i st -> sim_inv df (S i) st.
Proof.
  intros (Ht & Hp & Hf & Ha). repeat split; auto.
  - eapply Forall_impl; [exact Ht|]. intros t. apply loop_trade_ok_mono. lia.
  - destruct (Hp H). lia.
  - destruct (Hp H). lia.
  - destruct (Hp H). assumption.
Qed.

Lemma sim_inv_init df : sim_inv df 0 sim_init.
Proof.
  unfold sim_inv, sim_init, nonneg, nonpos; cbn.
  split; [constructor|]. split; [congruence|]. split; reflexivity.
Qed.

Lemma sim_signal_inv cm df sig i st st1 :
  sim_inv df i st ->
  sim_signal cm (map bar_open df) sig (S i) st = Ok st1 ->
  sim_inv df (S i) st1.
Proof.
  intros Inv. unfold sim_signal.
  destruct (sig =? position st) eqn:Esig; cbn.
  { intros [= <-]. now apply sim_inv_mono. }
  intros H. apply bind_ok in H as (ts & Hts & H).
  assert (Forall (loop_trade_ok df (S i)) ts) as Fts.
  { pose proof (sim_inv_mono _ _ _ Inv) as (Ht & _).
    destruct Inv as (_ & Hp & Hf & Ha).
    destruct (position st =? 0) eqn:Epos; cbn in Hts.
    - now injection Hts as <-.
    - apply bind_ok in Hts as (t & Ht' & Hts). injection Hts as <-.
      apply Forall_app. split; [exact Ht|]. constructor; [|constructor].
      apply close_position_fields in Ht' as (E1 & E2 & E3 & E4 & E5 & E6).
      destruct Hp as [Hb Hpr]; [lia|].
      unfold loop_trade_ok. rewrite E1, E2, E3, E4, E5, E6.
      unfold open_at. repeat split; auto; lia. }
  destruct Inv as (_ & Hp & Hf & Ha).
  destruct (sig =? 0) eqn:Ez; cbn in H; injection H as <-;
    unfold sim_inv; cbn; (split; [exact Fts|]).
  - split; [congruence|]. now split.
  - split; [intros _; split; [lia|reflexivity]|]. split; reflexivity.
Qed.

Lemma sim_excursion_inv df highs lows i j st :
  sim_inv df i st -> sim_inv df i (sim_excursion highs lows j st).
Proof.
  intros Inv. unfold sim_excursion.
  destruct (position st =? 0) eqn:Epos; cbn; [exact Inv|].
  destruct Inv as (Ht & Hp & Hf & Ha). unfold sim_inv; cbn.
  split; [exact Ht|]. split; [exact Hp|]. split.
  - now apply py_max_nonneg.
  - now apply py_min_nonpos.
Qed.


Lemma sim_step_total cm df st i :
  cost_model_ok cm = true -> exists st', sim_step cm df st i = Ok st'.
Proof.
  intros Hcm. unfold sim_step, sim_signal.
  destruct (col_int _ _ =? position st); cbn; [eauto|].
  destruct (position st =? 0); cbn.
  - destruct (col_int _ _ =? 0); cbn; eauto.
  - destruct (close_position_total cm st i (col_float (map bar_open df) i) Hcm)
      as [t ->].
    cbn. destruct (col_int _ _ =? 0); cbn; eauto.
Qed.

(** After the body has run for bar [i], the position is the signal of bar
    [i - 1]. *)
Lemma sim_step_position cm df st i st' :
  sim_step cm df st i = Ok st' -> position st' = signal_at df (i - 1).
Proof.
  unfold sim_step, signal_at. intros H.
  apply bind_ok in H as (st1 & H1 & H2). injection H2 as <-.
  assert (position st1 = col_int (map bar_signal df) (i - 1)) as <-.
  { unfold sim_signal in H1.
    destruct (col_int _ _ =? position st) eqn:E; cbn in H1.
    - injection H1 as <-. lia.
    - apply bind_ok in H1 as (ts & _ & H1).
      destruct (col_int _ _ =? 0) eqn:Ez; cbn in H1; injection H1 as <-; cbn; lia. }
  unfold sim_excursion. now destruct (position st1 =? 0).
Qed.

(** The body for bar [i] reads the frame only through the price columns and
    the signal of bar [i - 1]. *)
Lemma sim_step_ext cm df df' st i :
  same_prices df df' -> signal_at df (i - 1) = signal_at df' (i - 1) ->
  sim_step cm df st i = sim_step cm df' st i.
Proof.
  intros (Ho & Hh & Hl & _) Hs. unfold sim_step.
  unfold signal_at in Hs. now rewrite Ho, Hh, Hl, Hs.
Qed.

(** Entering from flat: no trade is closed, the position is opened at the
    open of bar [i]. *)
Lemma sim_step_enter cm df st i sg :
  position st = 0 -> signal_at df (i - 1) = sg -> sg <> 0 ->
  exists st', sim_step cm df st i = Ok st' /\ position st' = sg /\
    cur_entry_bar st' = i /\ cur_entry_price st' = open_at df i /\
    trades st' = trades st.
Proof.
  intros Hp Hs Hz. unfold sim_step, sim_signal. unfold signal_at in Hs.
  rewrite Hs, Hp.
  replace (sg =? 0) with false by lia. cbn.
  eexists. split; [reflexivity|]. unfold sim_excursion; cbn.
  replace (sg =? 0) with false by lia. cbn. auto.
Qed.

(** Holding: while the lagged signal equals the open position, nothing is
    traded and the entry is kept. *)
Lemma sim_step_hold cm df st i :
  signal_at df (i - 1) = position st -> position st <> 0 ->
  exists st', sim_step cm df st i = Ok st' /\ position st' = position st /\
    cur_entry_bar st' = cur_entry_bar st /\
    cur_entry_price st' = cur_entry_price st /\ trades st' = trades st.
Proof.
  intros Hs Hp. unfold sim_step, sim_signal. unfold signal_at in Hs.
  rewrite Hs, Z.eqb_refl. cbn.
  eexists. split; [reflexivity|]. unfold sim_excursion.
  replace (position st =? 0) with false by lia. cbn. auto.
Qed.

(** ** The simulator: the loop *)

Lemma sim_loop_app cm df l1 l2 st :
  sim_loop cm df (l1 ++ l2) st = sim_loop cm df l1 st ≫= sim_loop cm df l2.
Proof.
  revert st. induction l1 as [|i l1 IH]; intros st; cbn; [reflexivity|].
  destruct (sim_step cm df st i) as [st'|e]; cbn; [apply IH|reflexivity].
Qed.

Lemma sim_after_S cm df k :
  sim_after cm df (S k)
  = sim_after cm df k ≫= (fun st => sim_step cm df st (S k)).
Proof.
  unfold sim_after. rewrite seq_S, sim_loop_app. cbn [Nat.add].
  destruct (sim_loop cm df (seq 1 k) sim_init) as [st|e]; cbn; [|reflexivity].
  now destruct (sim_step cm df st (S k)).
Qed.

Lemma sim_loop_total cm df idxs st :
  cost_model_ok cm = true -> exists st', sim_loop cm df idxs st = Ok st'.
Proof.
  intros Hcm. revert st. induction idxs as [|i idxs IH]; intros st; cbn; [eauto|].
  destruct (sim_step_total cm df st i Hcm) as [st' ->]. cbn. apply IH.
Qed.


Lemma sim_after_position cm df k st :
  (1 <= k)%nat -> sim_after cm df k = Ok st ->
  position st = signal_at df (k - 1).
Proof.
  destruct k as [|k]; [lia|]. intros _. rewrite sim_after_S. intros H.
  apply bind_ok in H as (st0 & _ & H). now apply sim_step_position in H.
Qed.

Lemma sim_after_ext cm df df' k :
  same_prices df df' ->
  (forall j, (j < k)%nat -> signal_at df j = signal_at df' j) ->
  sim_after cm df k = sim_after cm df' k.
Proof.
  intros Hp. induction k as [|k IH]; intros Hs; [reflexivity|].
  rewrite !sim_after_S, IH by (intros; apply Hs; lia).
  destruct (sim_after cm df' k) as [st|e]; cbn; [|reflexivity].
  apply sim_step_ext; [exact Hp|]. apply Hs. lia.
Qed.

Lemma sim_after_flat cm df k :
  (forall j, (j < k)%nat -> signal_at df j = 0) ->
  sim_after cm df k = Ok sim_init.
Proof.
  induction k as [|k IH]; intros Hs; [reflexivity|].
  rewrite sim_after_S, IH by (intros; apply Hs; lia). cbn.
  unfold sim_step, sim_signal, sim_excursion.
  specialize (Hs k). unfold signal_at in Hs.
  replace (S k - 1)%nat with k by lia. rewrite Hs by lia. reflexivity.
Qed.

Lemma sim_loop_hold cm df m : forall a st,
  position st <> 0 ->
  (forall j, (a <= j < a + m)%nat -> signal_at df (j - 1) = position st) ->
  exists st', sim_loop cm df (seq a m) st = Ok st' /\
    position st' = position st /\ cur_entry_bar st' = cur_entry_bar st /\
    cur_entry_price st' = cur_entry_price st /\ trades st' = trades st.
Proof.
  induction m as [|m IH]; intros a st Hp Hs; cbn; [eauto 10|].
  destruct (sim_step_hold cm df st a) as (st1 & -> & E1 & E2 & E3 & E4);
    [apply Hs; lia | exact Hp |].
  cbn. destruct (IH (S a) st1) as (st' & -> & F1 & F2 & F3 & F4).
  - congruence.
  - intros j Hj. rewrite E1. apply Hs. lia.
  - eexists. split; [reflexivity|]. repeat split; congruence.
Qed.

Lemma simulate_trades_total df cm :
  cost_model_ok cm = true -> exists ts, simulate_trades df cm = Ok ts.
Proof.
  intros Hcm. unfold simulate_trades, sim_after.
  destruct (sim_loop_total cm df (seq 1 (length df - 1)) sim_init Hcm) as [st ->].
  cbn. unfold sim_flush. destruct (position st =? 0); cbn; [eauto|].
  destruct (close_position_total cm st (length df - 1)
              (List.last (map bar_close df) 0%float) Hcm) as [t ->].
  cbn. eauto.
Qed.


(** A signal that flips once, at bar [k] with a later bar left, gives exactly
    one trade: entered at the open of bar [k + 1], flushed at the last close. *)
Lemma single_flip_trades cm df k sg :
  cost_model_ok cm = true -> single_flip df k sg -> (k + 1 < length df)%nat ->
  exists t, simulate_trades df cm = Ok [t] /\
    entry_bar t = (k + 1)%nat /\ entry_price t = open_at df (k + 1) /\
    exit_bar t = (length df - 1)%nat /\ exit_price t = last_close df /\
    side t = (if sg =? 1 then "long" else "short").
Proof.
  intros Hcm (Hz & Hbefore & Hafter) Hk.
  assert (seq 1 (length df - 1)
          = seq 1 k ++ S k :: seq (S (S k)) (length df - k - 2)) as Hseq.
  { replace (length df - 1)%nat with (k + S (length df - k - 2))%nat by lia.
    now rewrite seq_app. }
  unfold simulate_trades, sim_after. rewrite Hseq, sim_loop_app.
  change (sim_loop cm df (seq 1 k) sim_init) with (sim_after cm df k).
  rewrite sim_after_flat by exact Hbefore. cbn [mbind result_bind sim_loop].
  destruct (sim_step_enter cm df sim_init (S k) sg)
    as (st1 & -> & P1 & P2 & P3 & P4);
    [reflexivity | replace (S k - 1)%nat with k by lia; apply Hafter; lia
    | exact Hz |].
  cbn [mbind result_bind].
  destruct (sim_loop_hold cm df (length df - k - 2) (S (S k)) st1)
    as (st2 & -> & Q1 & Q2 & Q3 & Q4).
  - congruence.
  - intros j Hj. rewrite P1. apply Hafter. lia.
  - cbn [mbind result_bind]. unfold sim_flush.
    replace (position st2 =? 0) with false by lia. cbn [negb].
    destruct (close_position_total cm st2 (length df - 1)
                (List.last (map bar_close df) 0%float) Hcm) as [t Ht].
    rewrite Ht. cbn [mbind result_bind].
    exists t. rewrite Q4, P4. split; [reflexivity|].
    pose proof Ht as Hside. unfold close_position in Hside.
    apply bind_ok in Hside as (c & _ & Hside). injection Hside as <-.
    cbn. rewrite Q1, Q2, Q3, P1, P2, P3.
    replace (k + 1)%nat with (S k) by lia.
    repeat split; auto.
Qed.

(** ** The simulator: claims *)

(** C1. Lag invariant: for a valid cost model, after the loop body has run for
    bar [i] (1 <= i <= n-1) the position equals [signal[i-1]]; that state does
    not depend on [signal[i]] or any later signal; and a signal that flips
    once to a non-zero value at bar [k], with bar [k+1] in the series, yields
    one trade whose entry bar is [k+1], entered at the open of bar [k+1]. *)
Theorem simulator_lag_invariant (df : list Bar) (cm : gmap string value) :
  cost_model_ok cm = true ->
  (forall i, (1 <= i <= length df - 1)%nat ->
     exists st, sim_after cm df i = Ok st /\
                position st = signal_at df (i - 1)) /\
  (forall i df', same_prices df df' ->
     (forall j, (j < i)%nat -> signal_at df j = signal_at df' j) ->
     sim_after cm df i = sim_after cm df' i) /\
  (forall k sg, single_flip df k sg -> (k + 1 < length df)%nat ->
     exists t, simulate_trades df cm = Ok [t] /\
               entry_bar t = (k + 1)%nat /\
               entry_price t = open_at df (k + 1)).
Proof.
  intros Hcm. split; [|split].
  - intros i Hi.
    destruct (sim_loop_total cm df (seq 1 i) sim_init Hcm) as [st Hst].
    exists st. split; [exact Hst|].
    apply (sim_after_position cm df i st); [lia | exact Hst].
  - intros i df' Hp Hs. now apply sim_after_ext.
  - intros k sg Hflip Hk.
    destruct (single_flip_trades cm df k sg Hcm Hflip Hk)
      as (t & Ht & E1 & E2 & _).
    exists t. auto.
Qed.

Lemma simulator_lag_invariant_witness :
  cost_model_ok DEFAULT_FUTURES_COST = true /\
  exists st, sim_after DEFAULT_FUTURES_COST round_trip_df 2 = Ok st /\
             position st = signal_at round_trip_df 1.
Proof.
  split; [reflexivity|].
  apply (simulator_lag_invariant round_trip_df DEFAULT_FUTURES_COST eq_refl).
  cbn. lia.
Defined.

(** The run on the signal column [0,1,1,1,0] itself, for arbitrary highs and
    lows: the first 1, on bar 1, enters at bar 2, and the 0 on bar 4 is never
    read. *)
Lemma round_trip_trace (highs lows : nat -> float) :
  simulate_trades (round_trip_frame highs lows) DEFAULT_FUTURES_COST
  = Ok [ {| entry_bar := 2; exit_bar := 4; side := "long";
            entry_price := 99; exit_price := 105; pnl := -11.5;
            mfe := py_max (py_max (py_max 0 (highs 2%nat - 99))
                                  (highs 3%nat - 99)) (highs 4%nat - 99);
            mae := py_min (py_min (py_min 0 (lows 2%nat - 99))
                                  (lows 3%nat - 99)) (lows 4%nat - 99) |} ].
Proof. vm_compute. reflexivity. Qed.

(** A frame with the scenario's opens and closes has five bars. *)
Lemma round_trip_bars (df : list Bar) :
  map bar_open df = round_trip_prices -> map bar_close df = round_trip_prices ->
  exists h0 l0 s0 h1 l1 s1 h2 l2 s2 h3 l3 s3 h4 l4 s4,
    df = [mkBar 100 h0 l0 100 s0; mkBar 101 h1 l1 101 s1; mkBar 99 h2 l2 99 s2;
          mkBar 102 h3 l3 102 s3; mkBar 105 h4 l4 105 s4].
Proof.
  unfold round_trip_prices. intros Ho Hc.
  destruct df as [|[o0 h0 l0 c0 s0] [|[o1 h1 l1 c1 s1] [|[o2 h2 l2 c2 s2]
    [|[o3 h3 l3 c3 s3] [|[o4 h4 l4 c4 s4] [|? ?]]]]]]; try discriminate.
  cbn in Ho, Hc. injection Ho as -> -> -> -> ->. injection Hc as -> -> -> -> ->.
  now exists h0, l0, s0, h1, l1, s1, h2, l2, s2, h3, l3, s3, h4, l4, s4.
Qed.

(** The run on a signal column whose decision series is [0,1,1,1,0]. *)
Lemma lagged_round_trip_trace (df : list Bar) :
  map bar_open df = round_trip_prices -> map bar_close df = round_trip_prices ->
  decisions df = round_trip_series ->
  exists m1 m2,
    simulate_trades df DEFAULT_FUTURES_COST
    = Ok [ {| entry_bar := 1; exit_bar := 4; side := "long";
              entry_price := 101; exit_price := 105; pnl := -13.5;
              mfe := m1; mae := m2 |} ].
Proof.
  intros Ho Hc Hd.
  destruct (round_trip_bars df Ho Hc)
    as (h0 & l0 & s0 & h1 & l1 & s1 & h2 & l2 & s2 & h3 & l3 & s3 & h4 & l4 & s4
        & ->).
  unfold round_trip_series in Hd. cbn in Hd. injection Hd as -> -> -> ->.
  eexists _, _. vm_compute. reflexivity.
Qed.

(** C2 (amended). With the scenario's opens and closes, whatever the highs and
    lows, and with [0,1,1,1,0] as the decision series (the lag applied, that is
    the signal column [1,1,1,0,_]), the run yields exactly one trade, a long
    one, entered at bar 1's open (101) and exited at bar 4's open, which is
    105 and not 102: net_pnl = (105 - 101) - (2*2.5 + 2*0.5*12.5) = -13.5. *)
Theorem round_trip_scenario (df : list Bar) :
  map bar_open df = round_trip_prices -> map bar_close df = round_trip_prices ->
  decisions df = round_trip_series ->
  exists t,
    simulate_trades df DEFAULT_FUTURES_COST = Ok [t] /\
    entry_bar t = 1%nat /\ entry_price t = open_at df 1 /\
    entry_price t = 101%float /\
    exit_bar t = 4%nat /\ exit_price t = open_at df 4 /\
    exit_price t = 105%float /\
    side t = "long" /\
    pnl t = ((105 - 101) - (2 * 2.5 + 2 * 0.5 * 12.5))%float /\
    pnl t = (-13.5)%float.
Proof.
  intros Ho Hc Hd.
  destruct (lagged_round_trip_trace df Ho Hc Hd) as (m1 & m2 & Hrun).
  eexists. split; [exact Hrun|]. unfold open_at. rewrite Ho.
  cbn. repeat split.
Qed.

Lemma round_trip_scenario_witness :
  exists t,
    simulate_trades lagged_round_trip_df DEFAULT_FUTURES_COST = Ok [t] /\
    entry_bar t = 1%nat /\ entry_price t = open_at lagged_round_trip_df 1 /\
    entry_price t = 101%float /\
    exit_bar t = 4%nat /\ exit_price t = open_at lagged_round_trip_df 4 /\
    exit_price t = 105%float /\
    side t = "long" /\
    pnl t = ((105 - 101) - (2 * 2.5 + 2 * 0.5 * 12.5))%float /\
    pnl t = (-13.5)%float.
Proof.
  apply (round_trip_scenario lagged_round_trip_df); reflexivity.
Defined.

Lemma round_trip_not_as_claimed : ~ round_trip_claim_as_stated.
Proof.
  intros (df & t & Ho & Hc & Hseries & Ht & _ & _ & _ & Hexit & _).
  assert (PrimFloat.eqb (exit_price t) 102 = false) as Hne.
  { destruct Hseries as [Hd|Hs].
    - destruct (lagged_round_trip_trace df Ho Hc Hd) as (m1 & m2 & Hrun).
      rewrite Hrun in Ht. injection Ht as <-. reflexivity.
    - destruct (round_trip_bars df Ho Hc)
        as (h0 & l0 & s0 & h1 & l1 & s1 & h2 & l2 & s2 & h3 & l3 & s3
            & h4 & l4 & s4 & ->).
      unfold round_trip_series in Hs. cbn in Hs. injection Hs as -> -> -> -> ->.
      vm_compute in Ht. injection Ht as <-. reflexivity. }
  rewrite Hexit in Hne. vm_compute in Hne. discriminate.
Qed.








(** ** The cost model: claims *)

Lemma unsupported_type_raises (cm : gmap string value) notional v :
  cm !! "type" = Some v -> supported_type v = false ->
  compute_round_trip_cost cm notional = Raise (ValueError_unknown_cost_model v).
Proof.
  intros Hv Hs. unfold compute_round_trip_cost, dict_get. rewrite Hv. cbn.
  unfold supported_type in Hs.
  apply orb_false_elim in Hs as [Hs H3]. apply orb_false_elim in Hs as [H1 H2].
  now rewrite H1, H2, H3.
Qed.

(** C7 (amended). A cost model whose type tag is present and is not one of
    "futures", "crypto_cex", "crypto_dex" makes [compute_round_trip_cost] raise
    the ValueError that names the tag; a cost model without a type tag is
    costed as futures; a futures, CEX or DEX model whose fields (or their
    defaults, when absent) are numbers returns the documented formula, for
    futures independently of the notional; and every valid cost model returns
    a cost without raising. *)
Theorem cost_model_error_handling (cm : gmap string value) (notional : float) :
  (forall v, cm !! "type" = Some v -> supported_type v = false ->
     compute_round_trip_cost cm notional
     = Raise (ValueError_unknown_cost_model v)) /\
  (cm !! "type" = None ->
     compute_round_trip_cost cm notional
     = compute_round_trip_cost (<["type" := VStr "futures"]> cm) notional) /\
  (forall c s t, cm !! "type" = Some (VStr "futures") ->
     num_field cm "commission_per_side" 2.50 = Ok c ->
     num_field cm "slippage_ticks" 0.5 = Ok s ->
     num_field cm "tick_value" 12.50 = Ok t ->
     forall any_notional,
     compute_round_trip_cost cm any_notional = Ok (2 * c + 2 * s * t)%float) /\
  (forall m t s, cm !! "type" = Some (VStr "crypto_cex") ->
     num_field cm "maker_fee" 0.0002 = Ok m ->
     num_field cm "taker_fee" 0.0005 = Ok t ->
     num_field cm "slippage_pct" 0.0005 = Ok s ->
     compute_round_trip_cost cm notional
     = Ok ((m + t + 2 * s) * notional)%float) /\
  (forall m t s g, cm !! "type" = Some (VStr "crypto_dex") ->
     num_field cm "maker_fee" 0.0002 = Ok m ->
     num_field cm "taker_fee" 0.0005 = Ok t ->
     num_field cm "slippage_pct" 0.001 = Ok s ->
     num_field cm "gas_per_trade" 0.50 = Ok g ->
     compute_round_trip_cost cm notional
     = Ok ((m + t + 2 * s) * notional + 2 * g)%float) /\
  (cost_model_ok cm = true ->
     exists c, compute_round_trip_cost cm notional = Ok c).
Proof.
  unfold num_field. repeat split.
  - intros v. apply unsupported_type_raises.
  - intros Hnone. unfold compute_round_trip_cost, dict_get.
    rewrite Hnone, lookup_insert_eq.
    now rewrite !lookup_insert_ne by discriminate.
  - intros c s t Ht Hc Hs Htv any_notional. unfold compute_round_trip_cost.
    rewrite Hc, Hs, Htv. unfold dict_get. now rewrite Ht.
  - intros m t s Ht Hm Htk Hs. unfold compute_round_trip_cost.
    rewrite Hm, Htk, Hs. unfold dict_get. now rewrite Ht.
  - intros m t s g Ht Hm Htk Hs Hg. unfold compute_round_trip_cost.
    rewrite Hm, Htk, Hs, Hg. unfold dict_get. now rewrite Ht.
  - apply cost_model_ok_total.
Qed.

Lemma cost_model_error_handling_witness :
  compute_round_trip_cost DEFAULT_FUTURES_COST 101
  = Ok (2 * 2.5 + 2 * 0.5 * 12.5)%float.
Proof.
  apply (proj1 (proj2 (proj2
           (cost_model_error_handling DEFAULT_FUTURES_COST 0)))
           2.5 0.5 12.5)%float; reflexivity.
Defined.

Lemma cost_missing_tag_defaults_to_futures : ~ cost_error_claim_as_stated.
Proof.
  intros H. destruct (H ∅ 101%float) as [e He]; try discriminate.
Qed.

(** ** Metrics *)

Section MetricsFacts.
Context {NL : NumericLib}.

Lemma py_round_infinity ndigits : py_round infinity ndigits = infinity.
Proof. reflexivity. Qed.

Lemma len_cons_pos {A} (x : A) (l : list A) : (0 <? len (x :: l)) = true.
Proof. apply Z.ltb_lt. unfold len. rewrite length_cons. lia. Qed.

Lemma py_int_truediv_len {A} a (x : A) (l : list A) :
  py_int_truediv a (len (x :: l))
  = Ok (float_of_Z a / float_of_Z (len (x :: l)))%float.
Proof.
  unfold py_int_truediv.
  replace (len (x :: l) =? 0) with false; [reflexivity|].
  symmetry. apply Z.eqb_neq. unfold len. rewrite length_cons. lia.
Qed.

(** A Python conditional expression [a / b if b > 0 else d] never raises. *)
Lemma guarded_truediv a b d :
  (if PrimFloat.ltb 0 b then py_truediv a b else Ok d)
  = Ok (if PrimFloat.ltb 0 b then (a / b)%float else d).
Proof.
  destruct (PrimFloat.ltb 0 b) eqn:E; [now apply py_truediv_pos|reflexivity].
Qed.

Lemma guarded_abs_truediv a b d :
  (if PrimFloat.ltb 0 b
   then q ← py_truediv a b; Ok (PrimFloat.abs q) else Ok d)
  = Ok (if PrimFloat.ltb 0 b then PrimFloat.abs (a / b) else d).
Proof.
  destruct (PrimFloat.ltb 0 b) eqn:E; [|reflexivity].
  now rewrite (py_truediv_pos a b E).
Qed.

(** No division of [compute_metrics] can raise: each one is guarded. *)
Lemma compute_metrics_total (trades : list Trade) :
  exists m, compute_metrics trades = Ok m.
Proof.
  destruct trades as [|t0 ts]; [cbn; eauto|].
  unfold compute_metrics. cbv zeta.
  rewrite len_cons_pos, py_int_truediv_len. cbn [mbind result_bind].
  rewrite guarded_truediv. cbn [mbind result_bind].
  rewrite guarded_truediv. cbn [mbind result_bind].
  rewrite guarded_abs_truediv. cbn [mbind result_bind].
  eauto.
Qed.

Lemma no_losers (trades : list Trade) :
  Forall (fun t => PrimFloat.ltb (pnl t) 0 = false) trades ->
  List.filter (fun p => PrimFloat.ltb p 0) (map pnl trades) = [].
Proof.
  induction 1 as [|t ts Ht _ IH]; cbn; [reflexivity|]. now rewrite Ht.
Qed.

(** C8. For a non-empty trade list with no strictly negative P&L and at least
    one strictly positive P&L, [compute_metrics] returns (it raises no
    ZeroDivisionError) and the profit factor of the bundle is +infinity. *)
Theorem profit_factor_infinity (trades : list Trade) :
  trades <> [] ->
  Forall (fun t => PrimFloat.ltb (pnl t) 0 = false) trades ->
  Exists (fun t => PrimFloat.ltb 0 (pnl t) = true) trades ->
  exists m, compute_metrics trades = Ok m /\ profit_factor m = infinity.
Proof.
  intros Hne Hnoloss _.
  destruct trades as [|t0 ts]; [congruence|].
  unfold compute_metrics. cbv zeta.
  rewrite (no_losers _ Hnoloss).
  rewrite len_cons_pos, py_int_truediv_len. cbn [mbind result_bind].
  change (0 <? len (@nil float)) with false. cbv iota.
  change (PrimFloat.ltb 0 0) with false. cbv iota.
  cbn [mbind result_bind].
  rewrite guarded_truediv. cbn [mbind result_bind].
  rewrite guarded_abs_truediv. cbn [mbind result_bind].
  eexists. split; [reflexivity|]. cbn [profit_factor].
  apply py_round_infinity.
Qed.

(** C9. On the empty trade list [compute_metrics] returns, without raising,
    the bundle [BacktestMetrics()] in which every numeric field is 0. *)
Theorem metrics_on_empty_input :
  compute_metrics [] = Ok BacktestMetrics_default /\
  total_pnl BacktestMetrics_default = 0%float /\
  sharpe_ratio BacktestMetrics_default = 0%float /\
  max_drawdown BacktestMetrics_default = 0%float /\
  max_drawdown_dollars BacktestMetrics_default = 0%float /\
  win_rate BacktestMetrics_default = 0%float /\
  profit_factor BacktestMetrics_default = 0%float /\
  total_trades BacktestMetrics_default = 0 /\
  avg_trade_pnl BacktestMetrics_default = 0%float /\
  avg_winner BacktestMetrics_default = 0%float /\
  avg_loser BacktestMetrics_default = 0%float /\
  max_consecutive_losses BacktestMetrics_default = 0 /\
  avg_holding_bars BacktestMetrics_default = 0%float /\
  expectancy BacktestMetrics_default = 0%float /\
  calmar_ratio BacktestMetrics_default = 0%float.
Proof. repeat split. Qed.

End MetricsFacts.

(** ** Grading *)

(** C5. [grade] (the flags of [check_overfit_flags] fed to [grade_result]) is
    the decision table of the specification, rule by rule and in its order;
    [passed] is False exactly when the grade is "rejected"; and the boundary
    values sharpe 3.0, 1.5, 1.0, win rate 0.80 and trade counts 30 and 100 fall
    on the side the table documents. *)
Theorem grade_decision_table (metrics : BacktestMetrics)
    (monthly_returns : list MonthlyReturn) :
  grade metrics monthly_returns
  = (fst (spec_grade_table metrics monthly_returns),
     grade_name (snd (spec_grade_table metrics monthly_returns))) /\
  (fst (grade metrics monthly_returns) = false <->
   snd (grade metrics monthly_returns) = "rejected") /\
  grade (graded_metrics 3.0 0.10 0.60 150) mixed_months = (true, "good") /\
  grade (graded_metrics 3.0001 0.10 0.60 150) mixed_months = (false, "rejected") /\
  grade (graded_metrics 1.5 0.10 0.60 150) mixed_months = (true, "under_review") /\
  grade (graded_metrics 1.5001 0.10 0.60 150) mixed_months = (true, "good") /\
  grade (graded_metrics 1.0 0.10 0.60 150) mixed_months = (true, "under_review") /\
  grade (graded_metrics 2.0 0.10 0.80 150) mixed_months = (true, "good") /\
  grade (graded_metrics 2.0 0.10 0.8001 150) mixed_months = (false, "rejected") /\
  grade (graded_metrics 2.0 0.10 0.60 30) mixed_months = (true, "under_review") /\
  grade (graded_metrics 2.0 0.10 0.60 29) mixed_months = (false, "rejected") /\
  grade (graded_metrics 2.0 0.10 0.60 100) mixed_months = (true, "under_review") /\
  grade (graded_metrics 2.0 0.10 0.60 101) mixed_months = (true, "good").
Proof.
  split; [|split; [|repeat split]].
  - unfold grade, grade_result, check_overfit_flags, spec_grade_table.
    cbn [sharpe_above_3 win_rate_above_80 trades_below_100 no_losing_months].
    cbv zeta.
    destruct (PrimFloat.ltb 3.0 (sharpe_ratio metrics)); [reflexivity|].
    destruct (PrimFloat.ltb 0.80 (win_rate metrics)); [reflexivity|].
    destruct (total_trades metrics <? 30); [reflexivity|].
    assert (match monthly_returns with
            | [] => false
            | _ :: _ =>
              (len (List.filter (fun m => PrimFloat.ltb (month_pnl m) 0)
                                monthly_returns) =? 0)
              && (3 <? len monthly_returns)
            end
            = (len (List.filter (fun r => PrimFloat.ltb (month_pnl r) 0)
                                monthly_returns) =? 0)
              && (3 <? len monthly_returns)) as ->.
    { destruct monthly_returns; reflexivity. }
    destruct (_ && (3 <? len monthly_returns)); [reflexivity|].
    destruct (PrimFloat.leb 1.0 (sharpe_ratio metrics)),
             (PrimFloat.leb (sharpe_ratio metrics) 1.5); cbn [andb orb fst snd];
      try reflexivity;
      destruct (PrimFloat.ltb 0.15 (max_drawdown metrics)); cbn [andb orb fst snd];
      try reflexivity;
      destruct ((30 <=? total_trades metrics) && (total_trades metrics <=? 100));
      cbn [andb orb fst snd]; try reflexivity;
      destruct (PrimFloat.ltb 1.5 (sharpe_ratio metrics)
                && PrimFloat.leb (sharpe_ratio metrics) 3.0
                && PrimFloat.leb (max_drawdown metrics) 0.15
                && (100 <? total_trades metrics)
                && PrimFloat.leb (win_rate metrics) 0.80); reflexivity.
  - unfold grade, grade_result.
    repeat match goal with
    | |- context [if ?b then _ else _] => destruct b
    end; cbn; split; congruence.
Qed.

(** ** Walk-forward *)

Section WalkForwardFacts.
Context {NL : NumericLib} {Row : Type}.
Variable strategy : list Row -> result (list Bar).

Lemma evaluate_slice_total rows cm :
  strategy_total strategy -> cost_model_ok cm = true ->
  exists m, evaluate_slice strategy rows cm = Ok m.
Proof.
  intros Hs Hcm. unfold evaluate_slice.
  destruct (Hs rows) as [sdf ->]. cbn.
  destruct (simulate_trades_total sdf cm Hcm) as [ts ->]. cbn.
  apply compute_metrics_total.
Qed.

Lemma evaluate_slice_evaluated rows cm m :
  evaluate_slice strategy rows cm = Ok m -> evaluated_on strategy cm rows m.
Proof.
  unfold evaluate_slice. intros H.
  apply bind_ok in H as (sdf & Hsdf & H).
  apply bind_ok in H as (ts & Hts & H).
  now exists sdf, ts.
Qed.

(** Inside the frame, [df.iloc[a:b]] is the rows at the positions [[a, b)]. *)
Lemma iloc_slice_window (df : list Row) (a b : Z) :
  0 <= a -> a <= b -> b <= len df -> is_window df a b (iloc_slice df a b).
Proof.
  intros Ha Hab Hb. unfold iloc_slice, is_window, len in *. cbv zeta.
  replace (a <? 0) with false by lia. replace (b <? 0) with false by lia.
  rewrite (Z.min_l a), (Z.min_l b) by lia.
  split.
  - rewrite length_take, length_drop. lia.
  - intros i Hi. rewrite lookup_take_lt by lia. rewrite lookup_drop.
    f_equal. lia.
Qed.

Lemma wf_fold_total (df : list Row) cm train_bars test_bars fold_num start :
  strategy_total strategy -> cost_model_ok cm = true ->
  start + train_bars + test_bars <= len df ->
  exists f, wf_fold strategy df cm train_bars test_bars fold_num start = Ok f /\
    fold f = fold_num /\
    train_range f = (start, start + train_bars) /\
    test_range f = (start + train_bars, start + train_bars + test_bars) /\
    evaluated_on strategy cm (iloc_slice df start (start + train_bars))
      (in_sample f) /\
    evaluated_on strategy cm
      (iloc_slice df (start + train_bars) (start + train_bars + test_bars))
      (out_of_sample f) /\
    oos_decay_pct f
    = py_round ((if PrimFloat.eqb (sharpe_ratio (in_sample f)) 0 then 0
                 else 1.0 - sharpe_ratio (out_of_sample f)
                            / sharpe_ratio (in_sample f)) * 100) 2.
Proof.
  intros Hs Hcm Hfit. unfold wf_fold. cbv zeta.
  rewrite (Z.min_l (start + train_bars + test_bars) (len df)) by exact Hfit.
  destruct (evaluate_slice_total (iloc_slice df start (start + train_bars)) cm
              Hs Hcm) as [ism His]. rewrite His.
  cbn [mbind result_bind].
  destruct (evaluate_slice_total
              (iloc_slice df (start + train_bars)
                          (start + train_bars + test_bars)) cm Hs Hcm)
    as [oosm Hoos]. rewrite Hoos.
  cbn [mbind result_bind].
  apply evaluate_slice_evaluated in His, Hoos.
  unfold py_truediv.
  destruct (PrimFloat.eqb (sharpe_ratio ism) 0) eqn:E;
    cbn [negb mbind result_bind]; eexists; (split; [reflexivity|]);
    cbn [fold train_range test_range in_sample out_of_sample oos_decay_pct];
    rewrite ?E; auto 10.
Qed.

Lemma fold_count_nonneg L train_bars test_bars step_bars :
  0 < step_bars -> 0 <= fold_count L train_bars test_bars step_bars.
Proof.
  intros Hstep. unfold fold_count.
  destruct (train_bars + test_bars <=? L) eqn:E; [|lia].
  apply Z.leb_le in E.
  pose proof (Z.div_pos (L - train_bars - test_bars) step_bars). lia.
Qed.

Lemma fold_count_fits L train_bars test_bars step_bars :
  0 < step_bars -> train_bars + test_bars <= L ->
  fold_count L train_bars test_bars step_bars
  = fold_count (L - step_bars) train_bars test_bars step_bars + 1.
Proof.
  intros Hstep Hfit. unfold fold_count.
  replace (train_bars + test_bars <=? L) with true by lia.
  destruct (train_bars + test_bars <=? L - step_bars) eqn:E.
  - apply Z.leb_le in E.
    replace (L - train_bars - test_bars)
      with (L - step_bars - train_bars - test_bars + 1 * step_bars) by lia.
    rewrite Z.div_add by lia. lia.
  - apply Z.leb_gt in E. rewrite Z.div_small by lia. lia.
Qed.

Lemma fold_count_none L train_bars test_bars step_bars :
  L < train_bars + test_bars -> fold_count L train_bars test_bars step_bars = 0.
Proof. intros H. unfold fold_count. now replace (train_bars + test_bars <=? L) with false by lia. Qed.

(** The windows counted by [fold_count] lie inside the frame. *)
Lemma fold_count_window_fits L train_bars test_bars step_bars j :
  0 < step_bars -> 0 <= j < fold_count L train_bars test_bars step_bars ->
  j * step_bars + train_bars + test_bars <= L.
Proof.
  intros Hstep Hj. unfold fold_count in Hj.
  destruct (train_bars + test_bars <=? L) eqn:E; [|lia].
  apply Z.leb_le in E.
  pose proof (Z.mul_div_le (L - train_bars - test_bars) step_bars Hstep).
  nia.
Qed.

(** The loop from [start]: with enough fuel it returns, appending one fold per
    window that fits, numbered from [fold_num + 1], the [j]-th of them
    shifted by [j * step_bars] and evaluated on the slices at that shift. *)
Lemma wf_loop_spec (df : list Row) cm train_bars test_bars step_bars :
  strategy_total strategy -> cost_model_ok cm = true -> 0 < step_bars ->
  forall fuel start fold_num acc,
  (Z.to_nat (fold_count (len df - start) train_bars test_bars step_bars)
   <= fuel)%nat ->
  exists fs,
    wf_loop strategy fuel df cm train_bars test_bars step_bars start fold_num acc
    = Some (Ok (acc ++ fs)) /\
    len fs = fold_count (len df - start) train_bars test_bars step_bars /\
    forall j, 0 <= j < len fs ->
      exists f, fs !! Z.to_nat j = Some f /\
        fold f = fold_num + j + 1 /\
        train_range f
        = (start + j * step_bars, start + j * step_bars + train_bars) /\
        test_range f
        = (start + j * step_bars + train_bars,
           start + j * step_bars + train_bars + test_bars) /\
        evaluated_on strategy cm
          (iloc_slice df (start + j * step_bars)
                      (start + j * step_bars + train_bars)) (in_sample f) /\
        evaluated_on strategy cm
          (iloc_slice df (start + j * step_bars + train_bars)
                      (start + j * step_bars + train_bars + test_bars))
          (out_of_sample f).
Proof.
  intros Hs Hcm Hstep. induction fuel as [|fuel IH]; intros start fold_num acc Hfuel.
  - pose proof (fold_count_nonneg (len df - start) train_bars test_bars
                  step_bars Hstep) as Hnn.
    destruct (Z.le_gt_cases (start + train_bars + test_bars) (len df)) as [Hfit|Hno].
    + rewrite fold_count_fits in Hfuel by lia.
      pose proof (fold_count_nonneg (len df - start - step_bars) train_bars
                    test_bars step_bars Hstep). lia.
    + exists []. cbn [wf_loop].
      replace (start + train_bars + test_bars <=? len df) with false by lia.
      rewrite app_nil_r, fold_count_none by lia.
      split; [reflexivity|]. split; [reflexivity|]. unfold len; cbn. lia.
  - destruct (Z.le_gt_cases (start + train_bars + test_bars) (len df)) as [Hfit|Hno].
    + cbn [wf_loop].
      replace (start + train_bars + test_bars <=? len df) with true by lia.
      destruct (wf_fold_total df cm train_bars test_bars (fold_num + 1) start
                  Hs Hcm Hfit) as (f & -> & F1 & F2 & F3 & F4 & F5 & _).
      pose proof (fold_count_nonneg (len df - start - step_bars) train_bars
                    test_bars step_bars Hstep) as Hnn.
      rewrite fold_count_fits in Hfuel |- * by lia.
      destruct (IH (start + step_bars) (fold_num + 1) (acc ++ [f]))
        as (fs & -> & Hlen & Hfs).
      { replace (len df - (start + step_bars)) with (len df - start - step_bars)
          by lia. lia. }
      replace (len df - (start + step_bars)) with (len df - start - step_bars)
        in Hlen by lia.
      exists (f :: fs). rewrite <- app_assoc. split; [reflexivity|].
      split; [unfold len in *; rewrite length_cons; lia|].
      intros j Hj. destruct (Z.eq_dec j 0) as [->|Hj0].
      * exists f. cbn [lookup list_lookup Z.to_nat].
        replace (start + 0 * step_bars) with start by lia.
        rewrite F1, F2, F3. repeat split; auto; f_equal; lia.
      * destruct (Hfs (j - 1)) as (f' & G0 & G1 & G2 & G3 & G4 & G5).
        { unfold len in *. rewrite length_cons in Hj. lia. }
        exists f'. replace (Z.to_nat j) with (S (Z.to_nat (j - 1))) by lia.
        replace (start + j * step_bars)
          with (start + step_bars + (j - 1) * step_bars) by lia.
        cbn [lookup list_lookup]. rewrite G1, G2, G3.
        repeat split; auto; f_equal; lia.
    + exists []. cbn [wf_loop].
      replace (start + train_bars + test_bars <=? len df) with false by lia.
      rewrite app_nil_r, fold_count_none by lia.
      split; [reflexivity|]. split; [reflexivity|]. unfold len; cbn. lia.
Qed.

(** C6. With a positive step, a strategy that returns on every slice and a
    valid cost model, [run_walk_forward] returns (given fuel for its folds) a
    report with exactly [floor((L - train - test) / step) + 1] folds when
    [L >= train + test] and none otherwise.  Fold [k] (numbered [k + 1])
    records the ranges [[k*step, k*step + train)] and the next [test] bars; its
    in-sample metrics are those of the strategy's trades on
    [df.iloc[k*step : k*step + train]] and its out-of-sample metrics those on
    [df.iloc[k*step + train : k*step + train + test]], and for non-negative
    [train] and [test] these slices are exactly the [train] rows from position
    [k*step] and the [test] rows after them, never a shorter window.  When no
    fold fits, whatever the step, the strategy and the cost model, it returns
    the report with [total_folds = 0] and all aggregates 0 instead of
    raising. *)
Theorem walk_forward_fold_count (df : list Row) (cm : gmap string value)
    (wf_config : WfConfig) :
  let train_bars := cfg_train_bars wf_config in
  let test_bars := cfg_test_bars wf_config in
  let step_bars := default test_bars (cfg_step_bars wf_config) in
  let n_folds := fold_count (len df) train_bars test_bars step_bars in
  (strategy_total strategy -> cost_model_ok cm = true -> 0 < step_bars ->
   forall fuel, (Z.to_nat n_folds <= fuel)%nat ->
   exists report,
     run_walk_forward strategy fuel df cm wf_config = Some (Ok report) /\
     total_folds report = n_folds /\
     len (folds report) = n_folds /\
     forall k, 0 <= k < n_folds ->
       exists f, folds report !! Z.to_nat k = Some f /\
         fold f = k + 1 /\
         train_range f = (k * step_bars, k * step_bars + train_bars) /\
         test_range f = (k * step_bars + train_bars,
                         k * step_bars + train_bars + test_bars) /\
         evaluated_on strategy cm
           (iloc_slice df (k * step_bars) (k * step_bars + train_bars))
           (in_sample f) /\
         evaluated_on strategy cm
           (iloc_slice df (k * step_bars + train_bars)
                       (k * step_bars + train_bars + test_bars))
           (out_of_sample f) /\
         (0 <= train_bars -> 0 <= test_bars ->
          fold_on_windows strategy cm df train_bars test_bars (k * step_bars) f)) /\
  (len df < train_bars + test_bars ->
   forall fuel,
     run_walk_forward strategy fuel df cm wf_config
     = Some (Ok (empty_report wf_config))).
Proof.
  intros train_bars test_bars step_bars n_folds. split.
  - intros Hs Hcm Hstep fuel Hfuel. unfold run_walk_forward.
    fold train_bars test_bars step_bars.
    destruct (wf_loop_spec df cm train_bars test_bars step_bars Hs Hcm Hstep
                fuel 0 0 [])
      as (fs & -> & Hlen & Hfs).
    { now rewrite Z.sub_0_r. }
    rewrite Z.sub_0_r in Hlen. fold n_folds in Hlen.
    eexists. split; [reflexivity|]. cbn [total_folds folds app].
    split; [exact Hlen|]. split; [exact Hlen|].
    intros k Hk. destruct (Hfs k) as (f & G0 & G1 & G2 & G3 & G4 & G5); [lia|].
    rewrite !Z.add_0_l in G2, G3, G4, G5.
    exists f. rewrite G1, G2, G3.
    split; [exact G0|]. split; [lia|]. split; [reflexivity|].
    split; [reflexivity|]. split; [exact G4|]. split; [exact G5|].
    intros Htrain Htest.
    pose proof (fold_count_window_fits (len df) train_bars test_bars step_bars
                  k Hstep Hk) as Hfit.
    exists (iloc_slice df (k * step_bars) (k * step_bars + train_bars)),
           (iloc_slice df (k * step_bars + train_bars)
                       (k * step_bars + train_bars + test_bars)).
    split; [apply iloc_slice_window; nia|].
    split; [apply iloc_slice_window; nia|]. split; [exact G4 | exact G5].
  - intros Hshort fuel. unfold run_walk_forward.
    fold train_bars test_bars step_bars.
    assert (wf_loop strategy fuel df cm train_bars test_bars step_bars 0 0 []
            = Some (Ok [])) as ->.
    { destruct fuel; cbn [wf_loop];
        now replace (0 + train_bars + test_bars <=? len df) with false by lia. }
    reflexivity.
Qed.

End WalkForwardFacts.

Lemma walk_forward_fold_count_witness :
  exists report,
    run_walk_forward (NL := PlainLib.lib) ready_strategy 3 hold_df
      DEFAULT_FUTURES_COST small_wf_config = Some (Ok report) /\
    total_folds report = 3.
Proof.
  destruct (proj1 (walk_forward_fold_count (NL := PlainLib.lib) ready_strategy
                     hold_df DEFAULT_FUTURES_COST small_wf_config))
    with (fuel := 3%nat) as (report & Hrun & Htotal & _).
  - intros rows. exists rows. reflexivity.
  - reflexivity.
  - reflexivity.
  - vm_compute. lia.
  - exists report. split; [exact Hrun | exact Htotal].
Defined.

Lemma profit_factor_infinity_witness :
  exists m, compute_metrics (NL := PlainLib.lib) winning_trades = Ok m /\
            profit_factor m = infinity.
Proof.
  apply (profit_factor_infinity (NL := PlainLib.lib) winning_trades).
  - discriminate.
  - repeat constructor.
  - constructor. reflexivity.
Defined.

(** ** EVT fallback *)

Section EvtFacts.
Context {NL : NumericLib}.


End EvtFacts.




(** * Further properties of the runner *)

(** ** The simulator: what every run keeps *)

Lemma StronglySorted_snoc {A} (R : A -> A -> Prop) (l : list A) (x : A) :
  StronglySorted R l -> Forall (fun y => R y x) l ->
  StronglySorted R (l ++ [x]).
Proof.
  induction 1 as [|y l Hl IH Hy]; cbn; intros HF.
  - repeat constructor.
  - apply Forall_cons in HF as [Hyx HF]. constructor; [now apply IH|].
    apply Forall_app. split; [exact Hy|]. now repeat constructor.
Qed.

Lemma close_position_spec cm st i p t :
  close_position cm st i p = Ok t ->
  exists c,
    compute_round_trip_cost cm (PrimFloat.abs (cur_entry_price st)) = Ok c /\
    side t = (if position st =? 1 then "long" else "short") /\
    pnl t = ((if (position st =? 1)%Z then p - cur_entry_price st
              else cur_entry_price st - p) - c)%float.
Proof.
  unfold close_position. intros H. apply bind_ok in H as (c & Hc & H).
  injection H as <-. exists c. cbn. split; [exact Hc|]. split; [reflexivity|].
  now destruct (position st =? 1).
Qed.

Lemma closed_trade_accounted cm df st i p t :
  position st <> 0 ->
  position st = signal_at df (cur_entry_bar st - 1) ->
  (1 <= cur_entry_bar st)%nat ->
  close_position cm st i p = Ok t ->
  trade_accounted cm df t.
Proof.
  intros Hne Hsig Hb Ht.
  destruct (close_position_spec _ _ _ _ _ Ht) as (c & Hc & Hside & Hpnl).
  apply close_position_fields in Ht as (E1 & E2 & E3 & E4 & _).
  unfold trade_accounted. cbv zeta. rewrite E1, E3, E4, <- Hsig.
  split; [exact Hb|]. split; [exact Hne|]. split; [exact Hside|].
  exists c. split; [exact Hc | exact Hpnl].
Qed.

Lemma sim_inv_ext_init cm df : sim_inv_ext cm df 0 sim_init.
Proof.
  unfold sim_inv_ext. split; [apply sim_inv_init|]. cbn.
  repeat split; try constructor; try congruence.
Qed.

Lemma sim_signal_inv_ext cm df i st st1 :
  sim_inv_ext cm df i st ->
  sim_signal cm (map bar_open df) (signal_at df i) (S i) st = Ok st1 ->
  sim_inv_ext cm df (S i) st1.
Proof.
  intros (Inv & Hsorted & Hexits & Hsig & Hacc & Hcount) H.
  split; [eapply sim_signal_inv; eauto|].
  pose proof Inv as (Hloop & Hp & _).
  unfold sim_signal in H. unfold open_count in *.
  destruct (signal_at df i =? position st) eqn:Esig; cbn in H.
  { injection H as <-. repeat split; auto; lia. }
  apply bind_ok in H as (ts & Hts & H).
  destruct (position st =? 0) eqn:Epos; cbn in Hts.
  - (* entering from flat *)
    injection Hts as <-.
    replace (signal_at df i =? 0) with false in H by lia. cbn in H.
    injection H as <-. cbn.
    replace (signal_at df i =? 0) with false by lia.
    rewrite ?Nat.sub_0_r.
    repeat split; auto; try lia.
    intros _. eapply Forall_impl; [exact Hloop|].
    unfold loop_trade_ok. intros t Ht. lia.
  - (* closing an open position *)
    apply bind_ok in Hts as (t & Ht & Hts). injection Hts as <-.
    assert (position st <> 0) as Hne by lia.
    destruct (Hp Hne) as ((Hb1 & Hb2) & _).
    pose proof (closed_trade_accounted cm df st (S i) _ t Hne (Hsig Hne) Hb1 Ht)
      as Hat.
    pose proof Ht as Hfields.
    apply close_position_fields in Hfields as (E1 & E2 & _).
    assert (StronglySorted before (trades st ++ [t])) as Hsorted'.
    { apply StronglySorted_snoc; [exact Hsorted|].
      eapply Forall_impl; [exact (Hexits Hne)|].
      unfold before. intros t' Ht'. rewrite E1. exact Ht'. }
    assert (Forall (trade_accounted cm df) (trades st ++ [t])) as Hacc'.
    { apply Forall_app. split; [exact Hacc|]. constructor; [exact Hat|constructor]. }
    assert (Forall (fun t' => (exit_bar t' <= S i)%nat) (trades st ++ [t]))
      as Hbound.
    { apply Forall_app. split.
      - eapply Forall_impl; [exact Hloop|].
        unfold loop_trade_ok. intros t' Ht'. lia.
      - constructor; [lia|constructor]. }
    destruct (signal_at df i =? 0) eqn:Ez; cbn in H; injection H as <-; cbn.
    + repeat split; auto; try congruence; rewrite length_app; cbn; lia.
    + replace (signal_at df i =? 0) with false by lia.
      rewrite ?Nat.sub_0_r.
      repeat split; auto; rewrite length_app; cbn; lia.
Qed.

Lemma sim_excursion_inv_ext cm df highs lows i j st :
  sim_inv_ext cm df i st -> sim_inv_ext cm df i (sim_excursion highs lows j st).
Proof.
  intros (Inv & Hrest). split; [now apply sim_excursion_inv|].
  unfold sim_excursion, open_count in *.
  destruct (position st =? 0) eqn:Epos; cbn; rewrite ?Epos; exact Hrest.
Qed.

Lemma sim_after_inv_ext cm df k st :
  sim_after cm df k = Ok st -> sim_inv_ext cm df k st.
Proof.
  revert st. induction k as [|k IH]; intros st.
  - intros [= <-]. apply sim_inv_ext_init.
  - rewrite sim_after_S. intros H. apply bind_ok in H as (st0 & H0 & H).
    unfold sim_step in H. apply bind_ok in H as (st1 & H1 & H2).
    injection H2 as <-. apply sim_excursion_inv_ext.
    apply (sim_signal_inv_ext cm df k st0 st1); [now apply IH|].
    replace (S k - 1)%nat with k in H1 by lia. exact H1.
Qed.

(** The trades of a run are in the order of the bars, they are accounted from
    the lagged signal, and there are fewer of them than bars. *)
Lemma simulate_trades_ext df cm ts :
  simulate_trades df cm = Ok ts ->
  StronglySorted before ts /\ Forall (trade_accounted cm df) ts /\
  (length ts <= length df - 1)%nat.
Proof.
  unfold simulate_trades. intros H. apply bind_ok in H as (st & Hst & H).
  apply sim_after_inv_ext in Hst
    as ((_ & Hp & _) & Hsorted & Hexits & Hsig & Hacc & Hcount).
  unfold sim_flush in H. unfold open_count in Hcount.
  destruct (position st =? 0) eqn:Epos; cbn in H.
  - injection H as <-. repeat split; auto; lia.
  - apply bind_ok in H as (t & Ht & H). injection H as <-.
    assert (position st <> 0) as Hne by lia.
    destruct (Hp Hne) as ((Hb1 & _) & _).
    pose proof (closed_trade_accounted cm df st _ _ t Hne (Hsig Hne) Hb1 Ht)
      as Hat.
    apply close_position_fields in Ht as (E1 & _).
    split; [|split].
    + apply StronglySorted_snoc; [exact Hsorted|].
      eapply Forall_impl; [exact (Hexits Hne)|].
      unfold before. intros t' Ht'. rewrite E1. exact Ht'.
    + apply Forall_app. split; [exact Hacc|]. constructor; [exact Hat|constructor].
    + rewrite length_app. cbn. lia.
Qed.

(** X1. Trades never overlap: in the returned list every trade has exited no
    later than any later trade enters (a reversal exits and enters on the same
    bar). *)
Theorem trades_chronological (df : list Bar) (cm : gmap string value)
    (ts : list Trade) :
  simulate_trades df cm = Ok ts -> StronglySorted before ts.
Proof. intros H. now apply simulate_trades_ext in H. Qed.

Lemma trades_chronological_witness : StronglySorted before reversal_trades.
Proof.
  apply (trades_chronological reversal_df DEFAULT_FUTURES_COST reversal_trades).
  vm_compute. reflexivity.
Defined.

(** X2. Every returned trade is entered on a bar [e >= 1] whose previous bar
    carries a non-zero signal [sg]; its side is "long" when [sg = 1] and
    "short" for any other value; and its P&L is the price move in that
    direction minus the round-trip cost on the absolute entry price. *)
Theorem trades_accounted (df : list Bar) (cm : gmap string value)
    (ts : list Trade) :
  simulate_trades df cm = Ok ts -> Forall (trade_accounted cm df) ts.
Proof. intros H. now apply simulate_trades_ext in H. Qed.

Lemma trades_accounted_witness :
  Forall (trade_accounted DEFAULT_FUTURES_COST reversal_df) reversal_trades.
Proof.
  apply (trades_accounted reversal_df DEFAULT_FUTURES_COST reversal_trades).
  vm_compute. reflexivity.
Defined.

(** X3. A run over [n] bars returns at most [n - 1] trades. *)
Theorem trades_fewer_than_bars (df : list Bar) (cm : gmap string value)
    (ts : list Trade) :
  simulate_trades df cm = Ok ts -> (length ts <= length df - 1)%nat.
Proof. intros H. now apply simulate_trades_ext in H. Qed.

Lemma trades_fewer_than_bars_witness :
  (length reversal_trades <= length reversal_df - 1)%nat.
Proof.
  apply (trades_fewer_than_bars reversal_df DEFAULT_FUTURES_COST reversal_trades).
  vm_compute. reflexivity.
Defined.

(** ** The simulator and the cost model *)

(** X4. While every signal before the last bar is 0 the simulator trades
    nothing and never consults the cost model: the result is the empty list
    for any cost model, also an unknown one, and in particular for an empty or
    single-bar frame. *)
Theorem flat_signal_no_trades (df : list Bar) (cm : gmap string value) :
  (forall j, (j + 1 < length df)%nat -> signal_at df j = 0) ->
  simulate_trades df cm = Ok [].
Proof.
  intros Hflat. unfold simulate_trades.
  rewrite sim_after_flat by (intros j Hj; apply Hflat; lia).
  reflexivity.
Qed.

Lemma flat_signal_no_trades_witness :
  simulate_trades last_bar_flip_df unknown_cost_model = Ok [].
Proof.
  apply (flat_signal_no_trades last_bar_flip_df unknown_cost_model).
  intros [|j] Hj; [reflexivity|]. cbn in Hj. lia.
Defined.

Lemma close_position_unsupported cm v st i p :
  cm !! "type" = Some v -> supported_type v = false ->
  close_position cm st i p = Raise (ValueError_unknown_cost_model v).
Proof.
  intros Hv Hs. unfold close_position.
  now rewrite (unsupported_type_raises cm _ v Hv Hs).
Qed.

(** With an unknown cost model a step either raises the ValueError or leaves
    the trade list alone; an open position can only be kept. *)
Lemma sim_step_unsupported cm v df st i :
  cm !! "type" = Some v -> supported_type v = false ->
  match sim_step cm df st i with
  | Raise e => e = ValueError_unknown_cost_model v
  | Ok st' => trades st' = trades st /\
              (position st <> 0 -> position st' = position st)
  end.
Proof.
  intros Hv Hs. unfold sim_step, sim_signal.
  destruct (col_int _ _ =? position st) eqn:Esig; cbn.
  - unfold sim_excursion. destruct (position st =? 0); cbn; auto.
  - destruct (position st =? 0) eqn:Epos; cbn.
    + unfold sim_excursion.
      destruct (col_int _ _ =? 0); cbn;
        [|destruct (col_int _ _ =? 0); cbn]; split; auto; lia.
    + now rewrite (close_position_unsupported cm v st _ _ Hv Hs).
Qed.

Lemma sim_loop_unsupported cm v df idxs :
  cm !! "type" = Some v -> supported_type v = false ->
  forall st,
  match sim_loop cm df idxs st with
  | Raise e => e = ValueError_unknown_cost_model v
  | Ok st' => trades st' = trades st /\
              (position st <> 0 -> position st' = position st)
  end.
Proof.
  intros Hv Hs. induction idxs as [|i idxs IH]; intros st; cbn; [auto|].
  pose proof (sim_step_unsupported cm v df st i Hv Hs) as Hstep.
  destruct (sim_step cm df st i) as [st1|e]; cbn; [|exact Hstep].
  destruct Hstep as (Ht & Hp). specialize (IH st1).
  destruct (sim_loop cm df idxs st1) as [st2|e]; [|exact IH].
  destruct IH as (Ht' & Hp'). split; [congruence|].
  intros Hne. rewrite Hp' by (rewrite Hp; auto). now apply Hp.
Qed.

Lemma sim_flush_unsupported cm v df st :
  cm !! "type" = Some v -> supported_type v = false -> position st <> 0 ->
  sim_flush cm df st = Raise (ValueError_unknown_cost_model v).
Proof.
  intros Hv Hs Hne. unfold sim_flush.
  replace (position st =? 0) with false by lia. cbn.
  now rewrite (close_position_unsupported cm v st _ _ Hv Hs).
Qed.

(** X5. With a cost model whose type tag is unknown, the simulator never
    returns a trade: a run that returns gives the empty list, and as soon as
    one signal before the last bar is non-zero the run raises the ValueError
    naming the tag (raised when the first position is closed, not before the
    simulation starts). *)
Theorem unknown_cost_model_raises (df : list Bar) (cm : gmap string value)
    (v : value) :
  cm !! "type" = Some v -> supported_type v = false ->
  (forall ts, simulate_trades df cm = Ok ts -> ts = []) /\
  (forall j, (j + 1 < length df)%nat -> signal_at df j <> 0 ->
     simulate_trades df cm = Raise (ValueError_unknown_cost_model v)).
Proof.
  intros Hv Hs. split.
  - intros ts H. unfold simulate_trades, sim_after in H.
    pose proof (sim_loop_unsupported cm v df (seq 1 (length df - 1)) Hv Hs sim_init)
      as Hloop.
    destruct (sim_loop cm df (seq 1 (length df - 1)) sim_init) as [st|e];
      cbn in H; [|discriminate].
    destruct Hloop as (Ht & _).
    destruct (Z.eq_dec (position st) 0) as [Hz|Hne].
    + unfold sim_flush in H. rewrite Hz in H. cbn in H. injection H as <-.
      exact Ht.
    + rewrite (sim_flush_unsupported cm v df st Hv Hs Hne) in H. discriminate.
  - intros j Hj Hsig. unfold simulate_trades, sim_after.
    replace (length df - 1)%nat with ((j + 1) + (length df - j - 2))%nat by lia.
    rewrite seq_app, sim_loop_app.
    pose proof (sim_loop_unsupported cm v df (seq 1 (j + 1)) Hv Hs sim_init)
      as Hpre.
    pose proof (sim_after_position cm df (j + 1)) as Hpos.
    unfold sim_after in Hpos.
    destruct (sim_loop cm df (seq 1 (j + 1)) sim_init) as [st1|e];
      cbn [mbind result_bind]; [|now subst e].
    specialize (Hpos st1 ltac:(lia) eq_refl).
    replace (j + 1 - 1)%nat with j in Hpos by lia.
    pose proof (sim_loop_unsupported cm v df
                  (seq (1 + (j + 1)) (length df - j - 2)) Hv Hs st1) as Hrest.
    destruct (sim_loop cm df (seq (1 + (j + 1)) (length df - j - 2)) st1)
      as [st2|e]; cbn [mbind result_bind]; [|now subst e].
    destruct Hrest as (_ & Hkeep).
    apply (sim_flush_unsupported cm v df st2 Hv Hs).
    rewrite Hkeep; congruence.
Qed.

Lemma unknown_cost_model_raises_witness :
  simulate_trades hold_df unknown_cost_model
  = Raise (ValueError_unknown_cost_model (VStr "equities")).
Proof.
  apply (proj2 (unknown_cost_model_raises hold_df unknown_cost_model
                  (VStr "equities") eq_refl eq_refl) 1%nat).
  - cbn. lia.
  - cbn. lia.
Defined.

(** ** Metrics: the integer fields *)

Section MetricsCounts.
Context {NL : NumericLib}.

Lemma losing_nonneg pnls : 0 <= losing pnls.
Proof. unfold losing, len. lia. Qed.

Lemma consec_fold (pnls : list float) : forall mx cur,
  0 <= cur ->
  let r := fold_left consec_step pnls (mx, cur) in
  mx <= r.1 /\ r.1 <= Z.max mx (cur + losing pnls) /\
  (losing pnls = 0 -> r.1 = mx) /\ (0 < losing pnls -> 1 <= r.1).
Proof.
  induction pnls as [|p pnls IH]; intros mx cur Hcur; cbn.
  - unfold losing, len. cbn. lia.
  - pose proof (losing_nonneg pnls) as Hnn.
    unfold losing in *. cbn [List.filter].
    destruct (PrimFloat.ltb p 0) eqn:Ep.
    + unfold len in *. rewrite length_cons.
      specialize (IH (Z.max mx (cur + 1)) (cur + 1) ltac:(lia)).
      cbv zeta in IH. destruct IH as (I1 & I2 & I3 & I4).
      repeat split; try lia.
    + specialize (IH mx 0 ltac:(lia)). cbv zeta in IH.
      destruct IH as (I1 & I2 & I3 & I4). repeat split; auto; lia.
Qed.

Lemma compute_metrics_counts (trades : list Trade) :
  exists m, compute_metrics trades = Ok m /\
    total_trades m = len trades /\
    0 <= max_consecutive_losses m <= losing (map pnl trades) /\
    (max_consecutive_losses m = 0 <-> losing (map pnl trades) = 0).
Proof.
  destruct trades as [|t0 ts].
  - eexists. split; [reflexivity|]. cbn. unfold losing, len. cbn. lia.
  - unfold compute_metrics. cbv zeta.
    rewrite len_cons_pos, py_int_truediv_len. cbn [mbind result_bind].
    rewrite guarded_truediv. cbn [mbind result_bind].
    rewrite guarded_truediv. cbn [mbind result_bind].
    rewrite guarded_abs_truediv. cbn [mbind result_bind].
    eexists. split; [reflexivity|].
    cbn [total_trades max_consecutive_losses].
    split; [reflexivity|].
    pose proof (consec_fold (map pnl (t0 :: ts)) 0 0 ltac:(lia)) as H.
    cbv zeta in H. destruct H as (H1 & H2 & H3 & H4).
    pose proof (losing_nonneg (map pnl (t0 :: ts))) as Hnn.
    change (fold_left consec_step (map pnl (t0 :: ts)) (0, 0)).1
      with (fst (fold_left consec_step (map pnl (t0 :: ts)) (0, 0))) in *.
    split; [lia|]. split; [|exact H3].
    intros Hz. destruct (Z.eq_dec (losing (map pnl (t0 :: ts))) 0); [assumption|].
    lia.
Qed.

(** X6. [compute_metrics] returns for every trade list; [total_trades] is the
    length of the list; [max_consecutive_losses] lies between 0 and the number
    of trades with strictly negative P&L, and is 0 exactly when there is no
    such trade. *)
Theorem metrics_counts (trades : list Trade) :
  exists m, compute_metrics trades = Ok m /\
    total_trades m = len trades /\
    0 <= max_consecutive_losses m <= losing (map pnl trades) /\
    (max_consecutive_losses m = 0 <-> losing (map pnl trades) = 0).
Proof. apply compute_metrics_counts. Qed.

End MetricsCounts.

(** ** Grading: the GOOD bucket *)

Lemma SFcompare_antisym (x y : spec_float) :
  SFcompare y x = option_map CompOpp (SFcompare x y).
Proof.
  destruct x as [[]|[]| |[] mx ex], y as [[]|[]| |[] my ey]; cbn;
    try reflexivity;
    rewrite (Z.compare_antisym ey ex);
    destruct (ey ?= ex)%Z; cbn; try reflexivity;
    change (Pos.compare_cont Eq ?a ?b) with (Pos.compare a b);
    rewrite (Pos.compare_antisym mx my);
    destruct (mx ?= my)%positive; reflexivity.
Qed.

Lemma float_le_not_gt (x y : float) :
  PrimFloat.leb x y = true -> PrimFloat.ltb y x = false.
Proof.
  rewrite FloatAxioms.leb_spec, FloatAxioms.ltb_spec. unfold SFleb, SFltb.
  rewrite (SFcompare_antisym (Prim2SF x) (Prim2SF y)).
  destruct (SFcompare (Prim2SF x) (Prim2SF y)) as [[]|]; cbn; congruence.
Qed.

Lemma float_lt_not_ge (x y : float) :
  PrimFloat.ltb x y = true -> PrimFloat.leb y x = false.
Proof.
  rewrite FloatAxioms.leb_spec, FloatAxioms.ltb_spec. unfold SFleb, SFltb.
  rewrite (SFcompare_antisym (Prim2SF x) (Prim2SF y)).
  destruct (SFcompare (Prim2SF x) (Prim2SF y)) as [[]|]; cbn; congruence.
Qed.

(** X7. A result is graded (True, "good") exactly when the four GOOD
    conditions hold (1.5 < sharpe <= 3.0, max_drawdown <= 0.15,
    total_trades > 100, win_rate <= 0.80) and the no-losing-months flag is
    off: those conditions already silence the other reject rules and the
    under-review rules; and a good result has none of the four anti-overfit
    flags set. *)
Theorem grade_good_iff (metrics : BacktestMetrics)
    (monthly_returns : list MonthlyReturn) :
  let flags := check_overfit_flags metrics monthly_returns in
  (grade metrics monthly_returns = (true, "good") <->
   good_conditions metrics = true /\ no_losing_months flags = false) /\
  (grade metrics monthly_returns = (true, "good") ->
   sharpe_above_3 flags = false /\ win_rate_above_80 flags = false /\
   trades_below_100 flags = false /\ no_losing_months flags = false).
Proof.
  intros flags.
  assert (good_conditions metrics = true -> no_losing_months flags = false ->
          grade metrics monthly_returns = (true, "good") /\
          sharpe_above_3 flags = false /\ win_rate_above_80 flags = false /\
          trades_below_100 flags = false) as Hgood.
  { unfold good_conditions. intros Hc Hm.
    repeat (apply andb_prop in Hc as [Hc ?]).
    unfold grade, grade_result. fold flags. rewrite Hm.
    unfold flags at 1 2. cbn [check_overfit_flags sharpe_above_3 win_rate_above_80].
    subst flags. cbn [check_overfit_flags sharpe_above_3 win_rate_above_80
                      trades_below_100].
    rewrite (float_le_not_gt _ _ H2), (float_le_not_gt _ _ H).
    rewrite (float_lt_not_ge _ _ Hc), andb_false_r.
    rewrite (float_le_not_gt _ _ H1).
    replace (total_trades metrics <? 30) with false by lia.
    replace (total_trades metrics <=? 100) with false by lia.
    replace (total_trades metrics <? 100) with false by lia.
    rewrite andb_false_r, Hc, H2, H1, H0, H. cbn. auto. }
  assert (grade metrics monthly_returns = (true, "good") ->
          good_conditions metrics = true /\ no_losing_months flags = false)
    as Hconv.
  { unfold grade, grade_result, good_conditions. fold flags.
    destruct (sharpe_above_3 flags); [discriminate|].
    destruct (win_rate_above_80 flags); [discriminate|].
    destruct (total_trades metrics <? 30); [discriminate|].
    destruct (no_losing_months flags); [discriminate|].
    destruct (_ && PrimFloat.leb (sharpe_ratio metrics) 1.5); [discriminate|].
    destruct (PrimFloat.ltb 0.15 (max_drawdown metrics)); [discriminate|].
    destruct ((30 <=? total_trades metrics) && _); [discriminate|].
    destruct (_ && PrimFloat.leb (win_rate metrics) 0.80); [auto|discriminate]. }
  split.
  - split; [exact Hconv|]. intros (Hc & Hm). now apply Hgood.
  - intros Hg. destruct (Hconv Hg) as (Hc & Hm).
    destruct (Hgood Hc Hm) as (_ & F1 & F2 & F3). auto.
Qed.

(** ** The sampled equity curve *)

Lemma multiples_sorted (s : nat) : (1 <= s)%nat -> forall c a,
  StronglySorted lt (map (fun k => (k * s)%nat) (seq a c)).
Proof.
  intros Hs. induction c as [|c IH]; intros a; cbn; constructor.
  - apply IH.
  - apply Forall_forall. intros x Hx. apply list_elem_of_In in Hx.
    apply in_map_iff in Hx as (k & <- & Hk). apply in_seq in Hk. nia.
Qed.

(** The number of samples of [range(0, stop, step)], for a positive step. *)
Lemma range_count_bounds (T S : Z) :
  0 < S -> 0 < T ->
  let c := (T + S - 1) / S in
  1 <= c /\ S * (c - 1) <= T - 1 /\ T <= S * c.
Proof.
  intros HS HT c.
  pose proof (Z.div_mod (T + S - 1) S ltac:(lia)) as Hdm.
  pose proof (Z.mod_pos_bound (T + S - 1) S HS) as Hmod.
  fold c in Hdm. nia.
Qed.

Section EquityCurveFacts.
Context {NL : NumericLib}.

(** X8. For a positive sampling step and at least one bar the sampled equity
    curve is returned, its first point is bar 0, its last point is the last
    bar, and its bars are strictly increasing (so the last bar is not listed
    twice).  A zero step raises the ValueError of [range]; with no bar and a
    non-zero step the curve is empty. *)
Theorem equity_curve_bars (trades : list Trade) (total_bars : nat)
    (sample_every : Z) :
  (0 < sample_every -> (0 < total_bars)%nat ->
   exists points,
     compute_equity_curve trades total_bars sample_every = Ok points /\
     head (map point_bar points) = Some 0%nat /\
     last (map point_bar points) = Some (total_bars - 1)%nat /\
     StronglySorted lt (map point_bar points)) /\
  (sample_every = 0 ->
   compute_equity_curve trades total_bars sample_every
   = Raise (LibraryError "ValueError: range() arg 3 must not be zero")) /\
  (sample_every <> 0 -> total_bars = 0%nat ->
   compute_equity_curve trades total_bars sample_every = Ok []).
Proof.
  split; [|split].
  - intros HS HT. unfold compute_equity_curve, range_from_0. cbv zeta.
    replace (sample_every =? 0) with false by lia.
    replace (sample_every <? 0) with false by lia.
    cbn [mbind result_bind].
    replace (0 <? total_bars)%nat with true
      by (symmetry; apply Nat.ltb_lt; exact HT).
    cbn [andb].
    destruct (range_count_bounds (Z.of_nat total_bars) sample_every HS
                ltac:(lia)) as (Hc1 & Hc2 & Hc3).
    set (c := (Z.of_nat total_bars + sample_every - 1) / sample_every) in *.
    set (s := Z.to_nat sample_every).
    assert (Z.of_nat s = sample_every) as Hs by (unfold s; lia).
    destruct (Z.to_nat c) as [|c'] eqn:Ec; [lia|].
    assert (Z.of_nat c' = c - 1) as Hc' by lia.
    set (equity := np_cumsum _).
    set (mk := fun i => {| point_bar := i;
                          point_equity := py_round (col_float equity i) 2 |}).
    assert (forall l, map point_bar (map mk l) = l) as Hbars.
    { intros l. rewrite map_map. cbn. apply map_id. }
    assert (StronglySorted lt (map (fun k => (k * s)%nat) (seq 0 (S c'))))
      as Hsorted by (apply multiples_sorted; lia).
    destruct ((Z.of_nat total_bars - 1) mod sample_every =? 0) eqn:Emod;
      cbn [negb]; eexists; (split; [reflexivity|]).
    + (* the last bar is itself a sample *)
      rewrite Hbars. split; [reflexivity|]. split; [|exact Hsorted].
      rewrite seq_S, map_app. cbn [map Nat.add]. rewrite last_snoc.
      f_equal. apply Z.eqb_eq in Emod.
      apply Z.mod_divide in Emod; [|lia]. destruct Emod as [q Hq].
      assert (q = c - 1) as Hqc by nia.
      apply Nat2Z.inj. rewrite Nat2Z.inj_mul, Hs, Hc', <- Hqc. lia.
    + (* the last bar is appended *)
      rewrite map_app, Hbars. cbn [map point_bar].
      split; [reflexivity|]. split; [apply last_snoc|].
      apply StronglySorted_snoc; [exact Hsorted|].
      apply Forall_forall. intros x Hx. apply list_elem_of_In in Hx.
      apply in_map_iff in Hx as (k & <- & Hk). apply in_seq in Hk.
      apply Z.eqb_neq in Emod.
      assert (Z.of_nat (k * s) <> Z.of_nat total_bars - 1) as Hne.
      { intros Heq. apply Emod. rewrite <- Heq, Nat2Z.inj_mul, Hs.
        apply Z.mod_mul. lia. }
      nia.
  - intros ->. reflexivity.
  - intros HS ->. unfold compute_equity_curve, range_from_0. cbv zeta.
    replace (sample_every =? 0) with false by lia.
    destruct (sample_every <? 0) eqn:Eneg; cbn [mbind result_bind andb Nat.ltb
      Nat.leb]; [reflexivity|].
    replace ((Z.of_nat 0 + sample_every - 1) / sample_every) with 0;
      [reflexivity|].
    symmetry. apply Z.div_small. lia.
Qed.

End EquityCurveFacts.

Lemma equity_curve_bars_witness :
  exists points,
    compute_equity_curve (NL := PlainLib.lib) reversal_trades 25 10 = Ok points /\
    head (map point_bar points) = Some 0%nat /\
    last (map point_bar points) = Some 24%nat /\
    StronglySorted lt (map point_bar points).
Proof.
  apply (proj1 (equity_curve_bars (NL := PlainLib.lib) reversal_trades 25 10));
    lia.
Defined.

(** ** Monthly returns *)

#[local] Instance key_le_total : Total key_le.
Proof. intros a b. unfold key_le. apply String.leb_total. Qed.

Lemma string_le_ne_lt (a b : string) :
  String.leb a b = true -> a <> b -> String.ltb a b = true.
Proof.
  unfold String.leb, String.ltb. intros Hle Hne.
  destruct (String.compare a b) eqn:E; try reflexivity; try discriminate.
  apply String.compare_eq_iff in E. contradiction.
Qed.

(** Items sorted by key, with distinct keys, are strictly ascending. *)
Lemma sorted_items_strict (f : string * float -> MonthlyReturn) (l : list (string * float)) :
  (forall kv, month (f kv) = kv.1) ->
  Sorted key_le l -> NoDup (l.*1) ->
  Sorted (fun a b => String.ltb (month a) (month b) = true) (map f l).
Proof.
  intros Hf. induction 1 as [|x l Hl IH Hhd]; intros Hnd; cbn; constructor.
  - apply IH. now apply NoDup_cons in Hnd as [_ ?].
  - destruct Hhd as [|y l Hxy]; cbn; constructor.
    rewrite !Hf. apply string_le_ne_lt; [exact Hxy|].
    apply NoDup_cons in Hnd as [Hnotin _]. intros Heq. apply Hnotin.
    cbn. rewrite Heq. left.
Qed.

Section MonthlyFacts.
Context {Timestamp : Type}.
Variable strftime_Ym : Timestamp -> result string.
Variable np_round : float -> Z -> float.

(** [series.iloc[idx]] inside the column. *)
Lemma iloc_in_range (col : list Timestamp) (idx : Z) :
  0 <= idx < len col ->
  exists x, iloc col idx = Ok x /\ col !! Z.to_nat idx = Some x.
Proof.
  intros Hidx. unfold len in Hidx.
  destruct (lookup_lt_is_Some_2 col (Z.to_nat idx)) as [x Hx]; [lia|].
  exists x. split; [|exact Hx]. unfold iloc, len. cbv zeta.
  destruct (Z.ltb_spec idx 0) as [?|_]; [lia|].
  destruct (Z.leb_spec 0 idx) as [_|?]; [|lia].
  destruct (Z.ltb_spec idx (Z.of_nat (length col))) as [_|?]; [|lia].
  cbn [andb]. now rewrite Hx.
Qed.

(** On a non-empty column the clamped exit bar is always in range. *)
Lemma iloc_clamped (col : list Timestamp) (e : nat) :
  col <> [] ->
  exists x, iloc col (Z.min (Z.of_nat e) (len col - 1)) = Ok x /\
            col !! Nat.min e (length col - 1) = Some x.
Proof.
  intros Hne. assert (0 < length col)%nat as Hlen.
  { destruct col; [congruence|]. cbn. lia. }
  destruct (iloc_in_range col (Z.min (Z.of_nat e) (len col - 1)))
    as (x & Hx & Hl); [unfold len; lia|].
  exists x. split; [exact Hx|]. rewrite <- Hl. f_equal. unfold len. lia.
Qed.

(** A trade is booked under a key exactly when its step of the loop returns. *)
Lemma monthly_add_booked (col : list Timestamp) monthly (t : Trade) :
  col <> [] ->
  (forall k, booked_under strftime_Ym col t k ->
     monthly_add strftime_Ym col monthly t
     = Ok (<[k := (default 0.0%float (monthly !! k) + pnl t)%float]> monthly)) /\
  (forall monthly', monthly_add strftime_Ym col monthly t = Ok monthly' ->
     exists k, booked_under strftime_Ym col t k) /\
  (forall x e, col !! Nat.min (exit_bar t) (length col - 1) = Some x ->
     strftime_Ym x = Raise e ->
     monthly_add strftime_Ym col monthly t = Raise e).
Proof.
  intros Hne. unfold monthly_add. cbv zeta.
  destruct (iloc_clamped col (exit_bar t) Hne) as (x & -> & Hx).
  cbn [mbind result_bind]. split; [|split].
  - intros k (x' & Hx' & Hk). rewrite Hx in Hx'. injection Hx' as <-.
    now rewrite Hk.
  - intros monthly' H. apply bind_ok in H as (k & Hk & _).
    exists k, x. auto.
  - intros x' e Hx' He. rewrite Hx in Hx'. injection Hx' as <-.
    now rewrite He.
Qed.

Lemma monthly_loop_spec (col : list Timestamp) (trades : list Trade) :
  col <> [] ->
  Forall (fun t => exists k, booked_under strftime_Ym col t k) trades ->
  forall monthly,
  exists monthly',
    monthly_loop strftime_Ym col monthly trades = Ok monthly' /\
    (forall k, is_Some (monthly' !! k) <->
               is_Some (monthly !! k) \/
               exists t, t ∈ trades /\ booked_under strftime_Ym col t k) /\
    (size monthly' <= size monthly + length trades)%nat.
Proof.
  intros Hne. induction 1 as [|t trades [key Hkey] _ IH]; intros monthly; cbn.
  - exists monthly. split; [reflexivity|]. split; [|lia].
    intros k. split; [auto|]. intros [H|(t & Ht & _)]; [exact H|].
    now apply elem_of_nil in Ht.
  - rewrite (proj1 (monthly_add_booked col monthly t Hne) key Hkey).
    cbn [mbind result_bind].
    set (monthly1 := <[key := _]> monthly).
    destruct (IH monthly1) as (monthly' & -> & Hdom & Hsize).
    exists monthly'. split; [reflexivity|]. split.
    + intros k. rewrite Hdom. unfold monthly1.
      rewrite lookup_insert_is_Some. split.
      * intros [[Hk|(_ & Hs)]|(t' & Ht' & Hb)].
        -- right. exists t. split; [left|]. now rewrite <- Hk.
        -- now left.
        -- right. exists t'. split; [now right|exact Hb].
      * intros [Hs|(t' & Ht' & Hb)].
        -- left. destruct (decide (key = k)); [now left|right; auto].
        -- apply elem_of_cons in Ht' as [->|Ht'].
           ++ left. left. destruct Hkey as (x & Hx & Hk).
              destruct Hb as (x' & Hx' & Hk').
              rewrite Hx in Hx'. injection Hx' as <-. congruence.
           ++ right. exists t'. auto.
    + unfold monthly1 in Hsize. rewrite map_size_insert in Hsize.
      destruct (monthly !! key); cbn in Hsize; lia.
Qed.

(** The loop returns only when every trade's exit cell formats. *)
Lemma monthly_loop_returns (col : list Timestamp) (trades : list Trade) :
  col <> [] -> forall monthly monthly',
  monthly_loop strftime_Ym col monthly trades = Ok monthly' ->
  Forall (fun t => exists k, booked_under strftime_Ym col t k) trades.
Proof.
  intros Hne. induction trades as [|t trades IH]; intros monthly monthly' H;
    [constructor|].
  cbn in H. apply bind_ok in H as (monthly1 & Hadd & Hrest).
  constructor.
  - exact (proj1 (proj2 (monthly_add_booked col monthly t Hne)) _ Hadd).
  - exact (IH _ _ Hrest).
Qed.

(** X9. With a non-empty ["timestamp"] column whose cells at the trades' exit
    bars (clamped to the last row) all format, [compute_monthly_returns]
    returns a list whose months are strictly ascending (one entry per month),
    which holds exactly the months under which the trades are booked, and
    which is no longer than the trade list.  A trade whose exit cell does not
    format (a NaT) makes it raise.  Without trades, or without the column, the
    list is empty. *)
Theorem monthly_returns_by_month (trades : list Trade)
    (col : list Timestamp) :
  (col <> [] ->
   Forall (fun t => exists k, booked_under strftime_Ym col t k) trades ->
   exists ms,
     compute_monthly_returns strftime_Ym np_round trades (Some col) = Ok ms /\
     Sorted (fun a b => String.ltb (month a) (month b) = true) ms /\
     (forall k, k ∈ map month ms <->
                exists t, t ∈ trades /\ booked_under strftime_Ym col t k) /\
     (length ms <= length trades)%nat) /\
  (col <> [] ->
   forall t x e, t ∈ trades ->
     col !! Nat.min (exit_bar t) (length col - 1) = Some x ->
     strftime_Ym x = Raise e ->
     exists e',
       compute_monthly_returns strftime_Ym np_round trades (Some col) = Raise e') /\
  (forall timestamp_col,
     compute_monthly_returns strftime_Ym np_round [] timestamp_col = Ok []) /\
  compute_monthly_returns strftime_Ym np_round trades None = Ok [].
Proof.
  split; [|split; [|split; [reflexivity | now destruct trades]]].
  - intros Hne Hbooked. destruct trades as [|t0 ts].
    { exists []. cbn. split; [reflexivity|]. split; [constructor|]. split; [|lia].
      intros k. split.
      - intros H. now apply elem_of_nil in H.
      - intros (t & Ht & _). now apply elem_of_nil in Ht. }
    unfold compute_monthly_returns.
    destruct (monthly_loop_spec col (t0 :: ts) Hne Hbooked ∅)
      as (m & -> & Hdom & Hsize).
    cbn [mbind result_bind]. eexists. split; [reflexivity|].
    set (items := merge_sort key_le (map_to_list m)).
    assert (items ≡ₚ map_to_list m) as Hperm by apply merge_sort_Permutation.
    split; [|split].
    + apply sorted_items_strict; [reflexivity | apply Sorted_merge_sort; apply _ |].
      rewrite Hperm. apply NoDup_fst_map_to_list.
    + intros k. rewrite map_map. cbn.
      change (map (fun kv : string * float => kv.1) items) with (items.*1).
      rewrite Hperm. split.
      * intros Hk. apply list_elem_of_fmap in Hk as ((k' & v) & -> & Hkv).
        apply elem_of_map_to_list in Hkv. cbn.
        destruct (proj1 (Hdom k') (mk_is_Some _ _ Hkv)) as [Hs|Ht]; [|exact Ht].
        rewrite lookup_empty in Hs. now destruct Hs.
      * intros Ht. destruct (proj2 (Hdom k) (or_intror Ht)) as [v Hv].
        apply list_elem_of_fmap. exists (k, v). split; [reflexivity|].
        now apply elem_of_map_to_list.
    + rewrite length_map, Hperm, length_map_to_list.
      rewrite map_size_empty in Hsize. exact Hsize.
  - intros Hne t x e Ht Hx He.
    destruct trades as [|t0 ts]; [now apply elem_of_nil in Ht|].
    unfold compute_monthly_returns.
    destruct (monthly_loop strftime_Ym col ∅ (t0 :: ts)) as [m|e'] eqn:Hloop;
      cbn [mbind result_bind]; [|eauto].
    pose proof (monthly_loop_returns col (t0 :: ts) Hne _ _ Hloop) as Hall.
    rewrite Forall_forall in Hall.
    destruct (Hall t Ht) as (k & x' & Hx' & Hk).
    rewrite Hx in Hx'. injection Hx' as <-. congruence.
Qed.

End MonthlyFacts.

Lemma monthly_returns_by_month_witness :
  exists ms,
    compute_monthly_returns iso_month keep_value reversal_trades
      (Some reversal_dates) = Ok ms /\
    Sorted (fun a b => String.ltb (month a) (month b) = true) ms /\
    (forall k, k ∈ map month ms <->
               exists t, t ∈ reversal_trades /\
                         booked_under iso_month reversal_dates t k) /\
    (length ms <= length reversal_trades)%nat.
Proof.
  apply (proj1 (monthly_returns_by_month iso_month keep_value reversal_trades
                  reversal_dates)).
  - discriminate.
  - repeat constructor; eexists; eexists; split; reflexivity.
Defined.

(** A blank cell under the second trade's exit bar: the run raises. *)
Example monthly_returns_blank_cell :
  compute_monthly_returns iso_month keep_value reversal_trades
    (Some blank_last_dates)
  = Raise (LibraryError "ValueError: NaTType does not support strftime").
Proof. vm_compute. reflexivity. Qed.

(** ** Walk-forward with a step that does not advance *)

Section WalkForwardStuck.
Context {NL : NumericLib} {Row : Type}.
Variable strategy : list Row -> result (list Bar).

Lemma wf_loop_stuck (df : list Row) cm train_bars test_bars step_bars :
  strategy_total strategy -> cost_model_ok cm = true -> step_bars <= 0 ->
  forall fuel start fold_num acc,
  start + train_bars + test_bars <= len df ->
  wf_loop strategy fuel df cm train_bars test_bars step_bars start fold_num acc
  = None.
Proof.
  intros Hs Hcm Hstep. induction fuel as [|fuel IH];
    intros start fold_num acc Hfit; cbn [wf_loop];
    replace (start + train_bars + test_bars <=? len df) with true by lia;
    [reflexivity|].
  destruct (wf_fold_total strategy df cm train_bars test_bars (fold_num + 1)
              start Hs Hcm Hfit) as (f & -> & _).
  apply IH. lia.
Qed.

(** X10. When a first window fits and [step_bars] is zero or negative (also
    when it is omitted and [test_bars] is 0), the [while] loop of
    [run_walk_forward] never exits: with a strategy that returns on every
    slice and a valid cost model, no amount of fuel produces a report. *)
Theorem walk_forward_stuck (df : list Row) (cm : gmap string value)
    (wf_config : WfConfig) :
  strategy_total strategy -> cost_model_ok cm = true ->
  default (cfg_test_bars wf_config) (cfg_step_bars wf_config) <= 0 ->
  cfg_train_bars wf_config + cfg_test_bars wf_config <= len df ->
  forall fuel, run_walk_forward strategy fuel df cm wf_config = None.
Proof.
  intros Hs Hcm Hstep Hfit fuel. unfold run_walk_forward.
  rewrite (wf_loop_stuck df cm _ _ _ Hs Hcm Hstep fuel 0 0 []); [reflexivity|].
  lia.
Qed.

End WalkForwardStuck.

Lemma walk_forward_stuck_witness :
  run_walk_forward (NL := PlainLib.lib) ready_strategy 1000 hold_df
    DEFAULT_FUTURES_COST zero_step_config = None.
Proof.
  apply (walk_forward_stuck (NL := PlainLib.lib) ready_strategy hold_df
           DEFAULT_FUTURES_COST zero_step_config).
  - intros rows. exists rows. reflexivity.
  - reflexivity.
  - cbn. lia.
  - unfold len. cbn. lia.
Defined.

(** ** The whole backtest on a short frame *)

Section BacktestFacts.
Context {NL : NumericLib} {Timestamp : Type} {Row : Type}.
Variable strftime_Ym : Timestamp -> result string.
Variable date_str : Timestamp -> result string.
Variable np_round : float -> Z -> float.
Variable strategy_frame :
  list Row -> result (list Bar * option (list Timestamp)).

Lemma compute_equity_curve_returns trades total_bars sample_every :
  sample_every <> 0 ->
  exists points, compute_equity_curve trades total_bars sample_every = Ok points.
Proof.
  intros Hne. unfold compute_equity_curve, range_from_0. cbv zeta.
  replace (sample_every =? 0) with false by lia.
  destruct (sample_every <? 0); cbn [mbind result_bind];
    destruct (_ && _); eauto.
Qed.

Lemma compute_monthly_returns_returns trades timestamp_col :
  (forall col, timestamp_col = Some col ->
     (trades <> [] -> col <> []) /\
     Forall (cell_formats strftime_Ym date_str) col) ->
  exists ms,
    compute_monthly_returns strftime_Ym np_round trades timestamp_col = Ok ms.
Proof.
  intros Hcol. destruct trades as [|t0 ts]; [cbn; eauto|].
  destruct timestamp_col as [col|]; [|cbn; eauto].
  destruct (Hcol col eq_refl) as [Hne Hall].
  specialize (Hne ltac:(discriminate)).
  unfold compute_monthly_returns.
  assert (Forall (fun t => exists k, booked_under strftime_Ym col t k)
                 (t0 :: ts)) as Hbooked.
  { apply Forall_forall. intros t _.
    destruct (iloc_clamped col (exit_bar t) Hne) as (x & _ & Hx).
    rewrite Forall_forall in Hall.
    destruct (Hall x (list_elem_of_lookup_2 _ _ _ Hx)) as [[k Hk] _].
    exists k, x. auto. }
  destruct (monthly_loop_spec strftime_Ym col (t0 :: ts) Hne Hbooked ∅)
    as (m & -> & _).
  cbn. eauto.
Qed.

Lemma compute_date_range_returns (n_rows : nat) timestamp_col :
  (forall col, timestamp_col = Some col ->
     length col = n_rows /\ Forall (cell_formats strftime_Ym date_str) col) ->
  exists d, compute_date_range date_str n_rows timestamp_col = Ok d.
Proof.
  intros Hcol. unfold compute_date_range.
  destruct timestamp_col as [col|]; [|eauto].
  destruct (Hcol col eq_refl) as [Hlen Hall]. rewrite Forall_forall in Hall.
  destruct (Nat.ltb_spec 0 n_rows) as [Hpos|_]; [|eauto].
  destruct (iloc_in_range col 0) as (x & -> & Hx); [unfold len; lia|].
  cbn [mbind result_bind].
  destruct (Hall x (list_elem_of_lookup_2 _ _ _ Hx)) as [_ [d ->]].
  cbn [mbind result_bind].
  assert (iloc col (-1) = iloc col (len col - 1)) as ->.
  { unfold iloc, len. cbv zeta.
    replace (-1 <? 0) with true by lia.
    replace (Z.of_nat (length col) - 1 <? 0) with false by lia.
    now replace (-1 + Z.of_nat (length col)) with (Z.of_nat (length col) - 1)
      by lia. }
  destruct (iloc_in_range col (len col - 1)) as (y & -> & Hy); [unfold len; lia|].
  cbn [mbind result_bind].
  destruct (Hall y (list_elem_of_lookup_2 _ _ _ Hy)) as [_ [d' ->]].
  cbn [mbind result_bind]. eauto.
Qed.

(** X11. A backtest whose frame (as the strategy returns it) has at most 30
    bars is never accepted, whatever the prices, signals and valid cost model:
    when [run_backtest] returns, it is with pass = False and grade "rejected",
    because fewer than 30 trades fit in 30 bars; and it does return when the
    frame has no ["timestamp"] column or every cell of that column formats (no
    NaT). *)
Theorem short_backtest_rejected (df : list Row) (cm : gmap string value)
    (sdf : list Bar) (ts_col : option (list Timestamp)) :
  strategy_frame df = Ok (sdf, ts_col) ->
  (forall col, ts_col = Some col -> length col = length sdf) ->
  cost_model_ok cm = true ->
  (length sdf <= 30)%nat ->
  (forall r,
     run_backtest strftime_Ym date_str np_round strategy_frame df cm = Ok r ->
     res_pass r = false /\ res_grade r = "rejected" /\
     (length (res_trade_log r) < 30)%nat) /\
  ((forall col, ts_col = Some col ->
      Forall (cell_formats strftime_Ym date_str) col) ->
   exists r,
     run_backtest strftime_Ym date_str np_round strategy_frame df cm = Ok r).
Proof.
  intros Hstrat Hcol Hcm Hshort. unfold run_backtest. cbv zeta.
  rewrite Hstrat. cbn [mbind result_bind fst snd].
  destruct (simulate_trades_total sdf cm Hcm) as [ts Hts]. rewrite Hts.
  cbn [mbind result_bind].
  destruct (simulate_trades_ext sdf cm ts Hts) as (_ & _ & Hlen).
  destruct (compute_metrics_counts ts) as (m & -> & Htotal & _).
  cbn [mbind result_bind]. split.
  - intros r H.
    apply bind_ok in H as (ms & _ & H). apply bind_ok in H as (pts & _ & H).
    apply bind_ok in H as (dr & _ & H). injection H as <-.
    cbn [res_pass res_grade res_trade_log]. rewrite length_map.
    assert ((total_trades m <? 30) = true) as Hfew
      by (rewrite Htotal; unfold len; lia).
    unfold grade_result.
    destruct (sharpe_above_3 _); [repeat split; lia|].
    destruct (win_rate_above_80 _); [repeat split; lia|].
    rewrite Hfew. repeat split; lia.
  - intros Hfmt.
    destruct (compute_monthly_returns_returns ts ts_col) as [ms ->].
    { intros col Hc. split; [|now apply Hfmt].
      intros Hne Hnil. specialize (Hcol col Hc). subst col. cbn in Hcol.
      destruct ts; [congruence|]. cbn in Hlen. lia. }
    cbn [mbind result_bind].
    destruct (compute_equity_curve_returns ts (length df)
                (Z.max 10 (Z.of_nat (length df) / 100)) ltac:(lia)) as [pts ->].
    cbn [mbind result_bind].
    destruct (compute_date_range_returns (length sdf) ts_col) as [dr ->].
    { intros col Hc. split; [now apply Hcol | now apply Hfmt]. }
    cbn [mbind result_bind]. eauto.
Qed.

End BacktestFacts.

Lemma short_backtest_rejected_witness :
  exists r,
    run_backtest (NL := PlainLib.lib) iso_month iso_date keep_value dated_frame
      reversal_df DEFAULT_FUTURES_COST = Ok r /\
    res_pass r = false /\ res_grade r = "rejected".
Proof.
  destruct (short_backtest_rejected (NL := PlainLib.lib) iso_month iso_date
              keep_value dated_frame reversal_df DEFAULT_FUTURES_COST
              reversal_df (Some reversal_dates))
    as [Hrej Hret].
  - reflexivity.
  - intros col Hc. injection Hc as <-. reflexivity.
  - reflexivity.
  - cbn. lia.
  - destruct Hret as [r Hr].
    + intros col Hc. injection Hc as <-.
      repeat constructor; eexists; reflexivity.
    + exists r. split; [exact Hr|]. destruct (Hrej r Hr) as (Hp & Hg & _). auto.
Defined.

(** ** Exchange fee schedules *)

Section FeeScheduleFacts.
Variable str_lower : string -> string.

Lemma fallback_schedule (exchange : string) (vip_tier : Z) key tiers best s :
  str_lower exchange = key -> EXCHANGE_FEES !! key = Some tiers ->
  tiers !! vip_tier = None -> max_key tiers = Ok best ->
  tiers !! best = Some s ->
  get_fee_schedule str_lower exchange vip_tier = Ok s.
Proof.
  intros Hk Hx Ht Hm Hb. unfold get_fee_schedule. cbv zeta.
  rewrite Hk, Hx, Ht, Hm. cbn. now rewrite Hb.
Qed.

(** X12. For a known exchange and a VIP tier that is not in its table (too
    high, or negative), [get_fee_schedule] returns the schedule of the
    exchange's highest tier: tier 9 on binance, tier 5 on bybit and okx,
    tier 2 on hyperliquid.  A tier that is in the table gets its own
    schedule, and an unknown exchange the generic one
    [{"maker": 0.0002, "taker": 0.0005}]. *)
Theorem fee_schedule_fallback (exchange : string) (vip_tier : Z) :
  (str_lower exchange = "binance" -> ~ 0 <= vip_tier <= 9 ->
   get_fee_schedule str_lower exchange vip_tier
   = Ok (fee_schedule (-0.00001) 0.00015)) /\
  (str_lower exchange = "bybit" -> ~ 0 <= vip_tier <= 5 ->
   get_fee_schedule str_lower exchange vip_tier
   = Ok (fee_schedule (-0.00005) 0.00025)) /\
  (str_lower exchange = "okx" -> ~ 0 <= vip_tier <= 5 ->
   get_fee_schedule str_lower exchange vip_tier
   = Ok (fee_schedule 0.00008 0.00025)) /\
  (str_lower exchange = "hyperliquid" -> ~ 0 <= vip_tier <= 2 ->
   get_fee_schedule str_lower exchange vip_tier
   = Ok (fee_schedule 0.0001 0.0004)) /\
  (forall tiers schedule,
     EXCHANGE_FEES !! str_lower exchange = Some tiers ->
     tiers !! vip_tier = Some schedule ->
     get_fee_schedule str_lower exchange vip_tier = Ok schedule) /\
  (EXCHANGE_FEES !! str_lower exchange = None ->
   get_fee_schedule str_lower exchange vip_tier
   = Ok (fee_schedule 0.0002 0.0005)).
Proof.
  repeat split.
  - intros Hk Ht.
    apply (fallback_schedule exchange vip_tier "binance" BINANCE_TIERS 9);
      auto; try reflexivity.
    unfold BINANCE_TIERS. rewrite !lookup_insert_ne by lia. apply lookup_empty.
  - intros Hk Ht.
    apply (fallback_schedule exchange vip_tier "bybit" BYBIT_TIERS 5);
      auto; try reflexivity.
    unfold BYBIT_TIERS. rewrite !lookup_insert_ne by lia. apply lookup_empty.
  - intros Hk Ht.
    apply (fallback_schedule exchange vip_tier "okx" OKX_TIERS 5);
      auto; try reflexivity.
    unfold OKX_TIERS. rewrite !lookup_insert_ne by lia. apply lookup_empty.
  - intros Hk Ht.
    apply (fallback_schedule exchange vip_tier "hyperliquid" HYPERLIQUID_TIERS 2);
      auto; try reflexivity.
    unfold HYPERLIQUID_TIERS. rewrite !lookup_insert_ne by lia.
    apply lookup_empty.
  - intros tiers schedule Hx Ht. unfold get_fee_schedule. cbv zeta.
    now rewrite Hx, Ht.
  - intros Hx. unfold get_fee_schedule. cbv zeta. now rewrite Hx.
Qed.

End FeeScheduleFacts.

Lemma fee_schedule_fallback_witness :
  get_fee_schedule (fun s => s) "binance" (-1)
  = Ok (fee_schedule (-0.00001) 0.00015).
Proof.
  apply (proj1 (fee_schedule_fallback (fun s => s) "binance" (-1))).
  - reflexivity.
  - lia.
Defined.

(** ** Excursions *)

Lemma SFltb_trans (a b c : spec_float) :
  SFltb a b = true -> SFltb b c = true -> SFltb a c = true.
Proof.
  unfold SFltb.
  destruct a as [[]|[]| |[] ma ea], b as [[]|[]| |[] mb eb],
           c as [[]|[]| |[] mc ec]; cbn; try congruence;
    change (Pos.compare_cont Eq ?x ?y) with (Pos.compare x y);
    destruct (Z.compare_spec ea eb); cbn; try congruence;
    destruct (Z.compare_spec eb ec); cbn; try congruence;
    destruct (Z.compare_spec ea ec); cbn; try congruence; try lia;
    try (destruct (Pos.compare_spec ma mb); cbn; try congruence);
    try (destruct (Pos.compare_spec mb mc); cbn; try congruence);
    try (destruct (Pos.compare_spec ma mc); cbn; try congruence);
    intros; first [reflexivity | discriminate | exfalso; lia].
Qed.

Lemma float_lt_trans (a b c : float) :
  PrimFloat.ltb a b = true -> PrimFloat.ltb b c = true ->
  PrimFloat.ltb a c = true.
Proof. rewrite !FloatAxioms.ltb_spec. apply SFltb_trans. Qed.

Lemma float_lt_irrefl (a : float) : PrimFloat.ltb a a = false.
Proof.
  destruct (PrimFloat.ltb a a) eqn:E; [|reflexivity].
  pose proof (float_lt_not_ge a a E) as Hge.
  rewrite FloatAxioms.leb_spec in Hge. rewrite FloatAxioms.ltb_spec in E.
  unfold SFleb in Hge. unfold SFltb in E.
  destruct (SFcompare (Prim2SF a) (Prim2SF a)) as [[]|]; discriminate.
Qed.

(** [max(m, x)] is not below [x], and not below anything [m] was not below. *)
Lemma py_max_covers (m x y : float) :
  PrimFloat.ltb (py_max m x) x = false /\
  (PrimFloat.ltb m y = false -> PrimFloat.ltb (py_max m x) y = false).
Proof.
  unfold py_max. destruct (PrimFloat.ltb m x) eqn:E.
  - split; [apply float_lt_irrefl|]. intros Hy.
    destruct (PrimFloat.ltb x y) eqn:Exy; [|reflexivity].
    rewrite (float_lt_trans m x y E Exy) in Hy. discriminate.
  - auto.
Qed.

Lemma py_min_covers (m x y : float) :
  PrimFloat.ltb x (py_min m x) = false /\
  (PrimFloat.ltb y m = false -> PrimFloat.ltb y (py_min m x) = false).
Proof.
  unfold py_min. destruct (PrimFloat.ltb x m) eqn:E.
  - split; [apply float_lt_irrefl|]. intros Hy.
    destruct (PrimFloat.ltb y x) eqn:Eyx; [|reflexivity].
    rewrite (float_lt_trans y x m Eyx E) in Hy. discriminate.
  - auto.
Qed.

Lemma closed_trade_excursions cm df st i p t :
  position st <> 0 ->
  excursions_cover df (position st =? 1) (cur_entry_price st)
    (cur_entry_bar st) i (running_mfe st) (running_mae st) ->
  close_position cm st i p = Ok t ->
  trade_excursions_ok df t.
Proof.
  intros Hne Hcov Ht.
  destruct (close_position_spec _ _ _ _ _ Ht) as (c & _ & Hside & _).
  apply close_position_fields in Ht as (E1 & E2 & E3 & _ & E5 & E6).
  unfold trade_excursions_ok. rewrite E1, E2, E3, E5, E6, Hside.
  now destruct (position st =? 1).
Qed.

Lemma sim_signal_exc_inv cm df sig i st st1 :
  exc_inv df i st ->
  sim_signal cm (map bar_open df) sig (S i) st = Ok st1 ->
  Forall (trade_excursions_ok df) (trades st1) /\
  (position st1 <> 0 ->
   excursions_cover df (position st1 =? 1) (cur_entry_price st1)
     (cur_entry_bar st1) (S i) (running_mfe st1) (running_mae st1)).
Proof.
  intros (Htr & Hcov) H. unfold sim_signal in H.
  destruct (sig =? position st) eqn:Esig; cbn in H.
  { injection H as <-. auto. }
  apply bind_ok in H as (ts & Hts & H).
  assert (Forall (trade_excursions_ok df) ts) as Hts'.
  { destruct (position st =? 0) eqn:Epos; cbn in Hts.
    - now injection Hts as <-.
    - apply bind_ok in Hts as (t & Ht & Hts). injection Hts as <-.
      apply Forall_app. split; [exact Htr|].
      constructor; [|constructor].
      eapply closed_trade_excursions; [| |exact Ht]; [lia|].
      apply Hcov. lia. }
  destruct (sig =? 0) eqn:Ez; cbn in H; injection H as <-; cbn;
    (split; [exact Hts'|]).
  - intros Hne. congruence.
  - intros _ j Hj. lia.
Qed.

Lemma sim_excursion_exc_inv df i st :
  Forall (trade_excursions_ok df) (trades st) ->
  (position st <> 0 ->
   excursions_cover df (position st =? 1) (cur_entry_price st)
     (cur_entry_bar st) i (running_mfe st) (running_mae st)) ->
  exc_inv df i (sim_excursion (map bar_high df) (map bar_low df) i st).
Proof.
  intros Htr Hcov. unfold sim_excursion, exc_inv.
  destruct (position st =? 0) eqn:Epos; cbn.
  - split; [exact Htr|]. intros Hne. lia.
  - split; [exact Htr|]. intros Hne j Hj. specialize (Hcov Hne).
    unfold favourable, adverse, high_at, low_at in *.
    destruct (Nat.eq_dec j i) as [->|Hji].
    + destruct (position st =? 1); split;
        first [apply (proj1 (py_max_covers _ _ 0%float))
              | apply (proj1 (py_min_covers _ _ 0%float))].
    + destruct (Hcov j ltac:(lia)) as (Hf & Ha).
      destruct (position st =? 1); split;
        first [apply (proj2 (py_max_covers _ _ _)); exact Hf
              | apply (proj2 (py_min_covers _ _ _)); exact Ha].
Qed.

Lemma sim_after_exc_inv cm df k st :
  sim_after cm df k = Ok st -> exc_inv df k st.
Proof.
  revert st. induction k as [|k IH]; intros st.
  - intros [= <-]. split; [constructor|]. cbn. congruence.
  - rewrite sim_after_S. intros H. apply bind_ok in H as (st0 & H0 & H).
    unfold sim_step in H. apply bind_ok in H as (st1 & H1 & H2).
    injection H2 as <-.
    destruct (sim_signal_exc_inv cm df _ k st0 st1 (IH st0 H0) H1) as (Htr & Hcov).
    now apply sim_excursion_exc_inv.
Qed.

(** X13. For every returned trade and every bar from its entry bar up to, but
    not including, its exit bar, the bar's favourable excursion (high minus
    entry for a long, entry minus low for a short) does not compare greater
    than the trade's MFE and its adverse excursion does not compare smaller
    than the trade's MAE: the entry bar counts, the exit bar of a trade closed
    at an open does not. *)
Theorem excursions_dominate (df : list Bar) (cm : gmap string value)
    (ts : list Trade) :
  simulate_trades df cm = Ok ts -> Forall (trade_excursions_ok df) ts.
Proof.
  unfold simulate_trades. intros H. apply bind_ok in H as (st & Hst & H).
  apply sim_after_exc_inv in Hst as (Htr & Hcov).
  unfold sim_flush in H. destruct (position st =? 0) eqn:Epos; cbn in H.
  - now injection H as <-.
  - apply bind_ok in H as (t & Ht & H). injection H as <-.
    apply Forall_app. split; [exact Htr|]. constructor; [|constructor].
    eapply closed_trade_excursions; [| |exact Ht]; [lia|].
    intros j Hj. apply Hcov; lia.
Qed.

Lemma excursions_dominate_witness :
  Forall (trade_excursions_ok reversal_df) reversal_trades.
Proof.
  apply (excursions_dominate reversal_df DEFAULT_FUTURES_COST reversal_trades).
  vm_compute. reflexivity.
Defined.

(** ** Leverage advice *)

Lemma float_not_le_zero_nonzero (x : float) :
  PrimFloat.leb x 0 = false -> PrimFloat.eqb x 0 = false.
Proof.
  rewrite FloatAxioms.leb_spec, FloatAxioms.eqb_spec.
  change (Prim2SF 0) with (S754_zero false).
  destruct (Prim2SF x) as [[]|[]| |[] ? ?]; cbn; congruence.
Qed.

(** X14. [margin_buffer_ok] returns for every leverage and buffer multiple:
    the division [1.0 / leverage] is only reached when [leverage <= 0] is
    false, which excludes both zeros; and a leverage that is zero or negative
    is always reported as sufficient. *)
Theorem margin_buffer_ok_returns (leverage buffer_multiple : float) :
  exists ok, margin_buffer_ok leverage buffer_multiple = Ok ok /\
    (PrimFloat.leb leverage 0 = true -> ok = true) /\
    (PrimFloat.leb leverage 0 = false ->
     ok = PrimFloat.leb (1.0 / leverage * buffer_multiple) 1.0).
Proof.
  unfold margin_buffer_ok, py_truediv.
  destruct (PrimFloat.leb leverage 0) eqn:E.
  - exists true. repeat split; auto. discriminate.
  - rewrite (float_not_le_zero_nonzero _ E). cbn.
    eexists. repeat split; auto. discriminate.
Qed.

(** X15. The volatility floor of [max_recommended_leverage]: for every daily
    volatility below 0.01 (zero and negative ones included) the function
    returns, without a ZeroDivisionError, what it returns at 0.01; and
    whatever it returns never compares greater than the 20x cap. *)
Theorem leverage_floor_and_cap (daily_volatility cascade_risk : float) :
  (PrimFloat.ltb daily_volatility 0.01 = true ->
   max_recommended_leverage daily_volatility cascade_risk
   = max_recommended_leverage 0.01 cascade_risk /\
   exists r, max_recommended_leverage daily_volatility cascade_risk = Ok r) /\
  (forall r, max_recommended_leverage daily_volatility cascade_risk = Ok r ->
     PrimFloat.ltb MAX_LEVERAGE_CAP r = false).
Proof.
  split.
  - intros Hlow.
    assert (Hmax : py_max daily_volatility 0.01 = 0.01%float)
      by (unfold py_max; now rewrite Hlow).
    unfold max_recommended_leverage. rewrite Hmax.
    split; [reflexivity|]. cbn. eauto.
  - intros r H. unfold max_recommended_leverage in H.
    apply bind_ok in H as (b & _ & H). injection H as <-.
    unfold py_min.
    destruct (PrimFloat.ltb MAX_LEVERAGE_CAP (b * _)) eqn:E; [|exact E].
    apply float_lt_irrefl.
Qed.

Lemma leverage_floor_and_cap_witness :
  max_recommended_leverage 0 0.4 = max_recommended_leverage 0.01 0.4 /\
  exists r, max_recommended_leverage 0 0.4 = Ok r.
Proof.
  apply (proj1 (leverage_floor_and_cap 0 0.4)). reflexivity.
Defined.
